(** * balance_monitor.py: a shallow embedding and its checked properties

    The script polls six REST endpoints per account, merges the extracted
    values into one timestamped record and appends it to a per-account CSV
    file, in a loop that runs until a shutdown event is set.

    Python objects are modelled by the inductive type [pyval], exceptions
    by the error monad [result], dictionaries by insertion-ordered
    association lists, the file system by a [gmap] from path to the list
    of CSV records written so far, and the unbounded loop by a function
    over a finite prefix of per-cycle environments.  Each function comes
    twice: first on a terminal that takes every message and a disk whose
    writes go through once [open] has succeeded, then with its [print]
    calls and with writes that can raise. *)

From Stdlib Require Import ZArith List Bool DecimalString.
From stdpp Require Import base option list strings gmap.

Import ListNotations.
Open Scope Z_scope.
Open Scope string_scope.
Open Scope list_scope.

(** ** Exceptions *)

(** The classes of the exceptions the modelled code can meet.  All of them
    derive from [Exception], so an [except Exception] clause matches every
    value of this type.  The script replaces the SIGINT handler and never
    cancels a task, so [KeyboardInterrupt] and [CancelledError] (which do
    not derive from [Exception]) are not part of the model. *)
Inductive exn_class : Type :=
| KeyError
| IndexError
| TypeError
| AttributeError
| ValueError
| OverflowError
| ClientError        (* aiohttp: connection, payload, content type *)
| TimeoutError
| JSONDecodeError
| UnicodeDecodeError
| OSError.           (* open(): permission, missing directory, disk *)

(** An exception: its class and, when the script itself builds it, its
    message ([None] stands for a library-made message). *)
Record exn : Type := Exn { exn_cls : exn_class; exn_msg : option string }.

Definition lib_error (c : exn_class) : exn := Exn c None.

Inductive result (A : Type) : Type :=
| Ok (a : A)
| Raise (e : exn).
Arguments Ok {A} a.
Arguments Raise {A} e.

#[global] Instance result_ret : MRet result := fun A a => Ok a.
#[global] Instance result_bind : MBind result := fun A B f m =>
  match m with
  | Ok a => f a
  | Raise e => Raise e
  end.

(** [try: body / except Exception as e: handler e]. *)
Definition try_except {A : Type} (body : result A) (handler : exn -> result A)
  : result A :=
  match body with
  | Ok a => Ok a
  | Raise e => handler e
  end.

(** Left-to-right evaluation of [f] over a list, stopping at the first
    exception: what consuming a generator expression does. *)
Fixpoint for_each {A B : Type} (f : A -> result B) (xs : list A)
  : result (list B) :=
  match xs with
  | [] => Ok []
  | x :: rest =>
      y ← f x;
      ys ← for_each f rest;
      Ok (y :: ys)
  end.

(** ** Whole-number amounts

    A small model of floats on which the definitions below can be run:
    the floats that are whole numbers, read from plain decimal integers
    and added exactly. *)
Definition whole_of_str (s : string) : option Z :=
  Z.of_int <$> NilZero.int_of_string s.

Definition whole_sum (xs : list Z) : Z := fold_left Z.add xs 0.

(** ** Python values *)

Section Monitor.

Set Default Proof Using "Type".

(** Python floats are kept abstract: [F] is the carrier, and the three
    operations below are the conversions and the summation the extraction
    rules call. *)
Variable F : Type.
(** [float(n)] for an [int]; [None] is [OverflowError]. *)
Variable float_of_int : Z -> option F.
(** [float(s)] for a [str]; [None] is [ValueError]. *)
Variable float_of_str : string -> option F.
(** [0 + x1 + ... + xn] as computed by [sum] on a non-empty run of floats. *)
Variable float_sum : list F -> F.

(** The objects [json.loads] builds, which are also the values held by a
    record and written to the CSV file. *)
#[warnings="-register-all"]
Inductive pyval : Type :=
| PNone
| PBool (b : bool)
| PInt (n : Z)
| PFloat (x : F)
| PStr (s : string)
| PList (items : list pyval)
| PDict (entries : list (string * pyval)).

(** A [dict] with [str] keys: entries in insertion order, keys distinct. *)
Definition pydict : Type := list (string * pyval).

Fixpoint dict_get (d : pydict) (k : string) : option pyval :=
  match d with
  | [] => None
  | (k', v) :: rest => if String.eqb k' k then Some v else dict_get rest k
  end.

(** [d[k] = v]: overwrite in place when the key exists, else append. *)
Fixpoint dict_set (d : pydict) (k : string) (v : pyval) : pydict :=
  match d with
  | [] => [(k, v)]
  | (k', v') :: rest =>
      if String.eqb k' k then (k', v) :: rest
      else (k', v') :: dict_set rest k v
  end.

Definition dict_keys (d : pydict) : list string := map fst d.

(** [x[k]] for a [str] subscript. *)
Definition getitem (x : pyval) (k : string) : result pyval :=
  match x with
  | PDict d =>
      match dict_get d k with
      | Some v => Ok v
      | None => Raise (lib_error KeyError)
      end
  | _ => Raise (lib_error TypeError)
  end.

Definition chars (s : string) : list pyval :=
  map (fun c => PStr (String c EmptyString)) (String.list_ascii_of_string s).

(** [x[i]] for an [int] subscript [i >= 0]. *)
Definition getindex (x : pyval) (i : nat) : result pyval :=
  match x with
  | PList items =>
      match nth_error items i with
      | Some v => Ok v
      | None => Raise (lib_error IndexError)
      end
  | PStr s =>
      match nth_error (chars s) i with
      | Some v => Ok v
      | None => Raise (lib_error IndexError)
      end
  | PDict _ => Raise (lib_error KeyError)
  | _ => Raise (lib_error TypeError)
  end.

(** [x.get(k, default)]. *)
Definition get_default (x : pyval) (k : string) (default : pyval)
  : result pyval :=
  match x with
  | PDict d =>
      match dict_get d k with
      | Some v => Ok v
      | None => Ok default
      end
  | _ => Raise (lib_error AttributeError)
  end.

(** [iter(x)], run to the end. *)
Definition iterate (x : pyval) : result (list pyval) :=
  match x with
  | PList items => Ok items
  | PStr s => Ok (chars s)
  | PDict d => Ok (map (fun kv => PStr (fst kv)) d)
  | _ => Raise (lib_error TypeError)
  end.

Definition of_option {A : Type} (c : exn_class) (o : option A) : result A :=
  match o with
  | Some a => Ok a
  | None => Raise (lib_error c)
  end.

(** [float(x)]. *)
Definition py_float (x : pyval) : result F :=
  match x with
  | PFloat y => Ok y
  | PInt n => of_option OverflowError (float_of_int n)
  | PBool b => of_option OverflowError (float_of_int (if b then 1 else 0))
  | PStr s => of_option ValueError (float_of_str s)
  | _ => Raise (lib_error TypeError)
  end.

(** [sum(...)] over floats: the start value is the [int] 0, so an empty
    run gives the integer 0 and a non-empty one a float. *)
Definition py_sum (xs : list F) : pyval :=
  match xs with
  | [] => PInt 0
  | _ :: _ => PFloat (float_sum xs)
  end.

(** [sum(term(item) for item in items)]. *)
Definition sum_over (term : pyval -> result F) (items : list pyval)
  : result pyval :=
  xs ← for_each term items;
  Ok (py_sum xs).

(** ** The six extraction rules of [fetch_data_for_account] *)

(** [lambda x: x['balance']['amount']] *)
Definition extract_account_balance (x : pyval) : result pyval :=
  balance ← getitem x "balance";
  getitem balance "amount".

(** [lambda x: sum(float(reward['amount']) for reward in x.get('total', []))] *)
Definition extract_rewards (x : pyval) : result pyval :=
  total ← get_default x "total" (PList []);
  items ← iterate total;
  sum_over (fun reward => amount ← getitem reward "amount"; py_float amount)
           items.

(** [lambda x: x['rewards']['rewards'][0]['amount']] *)
Definition extract_outstanding_rewards (x : pyval) : result pyval :=
  outer ← getitem x "rewards";
  inner ← getitem outer "rewards";
  first ← getindex inner 0;
  getitem first "amount".

(** [lambda x: sum(float(tip['amount']['amount']) for tip in x.get('tips', []))] *)
Definition extract_available_tips (x : pyval) : result pyval :=
  tips ← get_default x "tips" (PList []);
  items ← iterate tips;
  sum_over (fun tip =>
              outer ← getitem tip "amount";
              amount ← getitem outer "amount";
              py_float amount)
           items.

(** [lambda x: x['validator']['delegator_shares']] *)
Definition extract_delegator_shares (x : pyval) : result pyval :=
  validator ← getitem x "validator";
  getitem validator "delegator_shares".

(** [lambda x: sum(float(delegation['balance']['amount'])
                  for delegation in x['delegation_responses'])] *)
Definition extract_delegations (x : pyval) : result pyval :=
  responses ← getitem x "delegation_responses";
  items ← iterate responses;
  sum_over (fun delegation =>
              balance ← getitem delegation "balance";
              amount ← getitem balance "amount";
              py_float amount)
           items.

(** ** fetch_endpoint *)

(** What one [session.get(endpoint)] meets: the request itself fails, or a
    response arrives with a status code, and with what [response.text()]
    and [response.json()] would give when awaited.

    [fetch_endpoint], [fetch_data_for_account], [save_to_csv] and
    [monitor_account] below are the functions of the script with a
    terminal that takes every message and a disk on which the writes that
    follow a successful [open] go through.  The functions with their
    [print] calls and with writes that can raise are [fetch_endpoint_io],
    [fetch_data_for_account_io], [save_to_csv_io] and [monitor_account_io]
    further down; they are shown to agree with the former in that case. *)
Inductive http_outcome : Type :=
| GetRaises (e : exn)
| Response (status : Z) (text : result string) (json : result pyval).

Definition session : Type := string -> http_outcome.

Definition fetch_endpoint (s : session) (endpoint column : string)
    (extract_func : pyval -> result pyval) : result (string * pyval) :=
  try_except
    (match s endpoint with
     | GetRaises e => Raise e
     | Response status text json =>
         if negb (Z.eqb status 200) then
           error_text ← text;
           Ok (column, PStr "")
         else
           data ← json;
           value ← extract_func data;
           Ok (column, value)
     end)
    (fun e => Ok (column, PStr "")).

(** ** Accounts and fetch_data_for_account *)

(** One entry of [ACCOUNTS]: a dict whose three values come from
    [os.getenv], hence [None] or a [str]. *)
Record account : Type := Account {
  name : option string;
  address : option string;
  valoper_address : option string
}.

(** How an f-string renders such a value. *)
Definition fmt (o : option string) : string :=
  match o with
  | Some s => s
  | None => "None"
  end.

Definition base_url : string := "https://info.layer-node.com".

(** The [endpoints] list: (endpoint, column, extract_func). *)
Definition endpoints (a : account)
  : list (string * string * (pyval -> result pyval)) :=
  [ (base_url +:+ "/cosmos/bank/v1beta1/balances/" +:+ fmt (address a)
       +:+ "/by_denom?denom=loya",
     "account_balance", extract_account_balance);
    (base_url +:+ "/cosmos/distribution/v1beta1/delegators/"
       +:+ fmt (address a) +:+ "/rewards",
     "rewards", extract_rewards);
    (base_url +:+ "/cosmos/distribution/v1beta1/validators/"
       +:+ fmt (valoper_address a) +:+ "/outstanding_rewards",
     "outstanding_rewards", extract_outstanding_rewards);
    (base_url +:+ "/tellor-io/layer/reporter/available-tips/"
       +:+ fmt (address a),
     "available-tips", extract_available_tips);
    (base_url +:+ "/cosmos/staking/v1beta1/validators/"
       +:+ fmt (valoper_address a),
     "delegator_shares", extract_delegator_shares);
    (base_url +:+ "/cosmos/staking/v1beta1/delegations/" +:+ fmt (address a),
     "delegations", extract_delegations) ].

(** [asyncio.gather] over the tasks: the results in task order, or the
    first exception. *)
Definition gather {A : Type} (tasks : list (result A)) : result (list A) :=
  for_each (fun t => t) tasks.

(** [now] is the text [datetime.now().strftime('%Y-%m-%d %H:%M:%S')]
    gives when the call is made. *)
Definition fetch_data_for_account (s : session) (now : string) (a : account)
  : result pydict :=
  let results := [("timestamp", PStr now)] in
  let tasks :=
    map (fun '(endpoint, column, extract_func) =>
           fetch_endpoint s endpoint column extract_func)
        (endpoints a) in
  responses ← gather tasks;
  Ok (fold_left (fun results '(column, value) => dict_set results column value)
                responses results).

(** ** The CSV file and save_to_csv *)

(** A file is the list of records written to it; a record is the list of
    cell values handed to the csv writer.  The file system maps the paths
    that exist to their contents. *)
Abbreviation csv_file := (list (list pyval)).

(** [csv.DictWriter(f, fieldnames=...)], with the default [restval='']
    and [extrasaction='raise']. *)
Record DictWriter : Type := { fieldnames : list string }.

Definition dict_to_list (w : DictWriter) (rowdict : pydict)
  : result (list pyval) :=
  if forallb (fun k => existsb (String.eqb k) (fieldnames w))
             (dict_keys rowdict)
  then Ok (map (fun k => default (PStr "") (dict_get rowdict k))
               (fieldnames w))
  else Raise (lib_error ValueError).

Definition writerow (w : DictWriter) (rowdict : pydict) (f : csv_file)
  : result unit * csv_file :=
  match dict_to_list w rowdict with
  | Ok row => (Ok tt, f ++ [row])
  | Raise e => (Raise e, f)
  end.

(** [writeheader]: [writerow(dict(zip(fieldnames, fieldnames)))]. *)
Definition writeheader (w : DictWriter) (f : csv_file)
  : result unit * csv_file :=
  writerow w (map (fun k => (k, PStr k)) (fieldnames w)) f.

(** [open_error filename] tells whether [open(filename, 'a')] raises.
    Opening in append mode creates a missing file; the [with] block
    keeps what was written even when a later statement raises. *)
Definition save_to_csv (open_error : string -> option exn) (data : pydict)
    (filename : string) (fs : gmap string csv_file)
  : result unit * gmap string csv_file :=
  let file_exists := bool_decide (is_Some (fs !! filename)) in
  match open_error filename with
  | Some e => (Raise e, fs)
  | None =>
      let f := default [] (fs !! filename) in
      let writer := {| fieldnames := dict_keys data |} in
      let '(r1, f1) :=
        if negb file_exists then writeheader writer f else (Ok tt, f) in
      match r1 with
      | Raise e => (Raise e, <[filename := f1]> fs)
      | Ok _ =>
          let '(r2, f2) := writerow writer data f1 in
          (r2, <[filename := f2]> fs)
      end
  end.

(** ** monitor_account *)

(** What the loop does that can be seen from outside, one event per call. *)
Inductive event : Type :=
| ECheck (is_set : bool)                   (* shutdown_event.is_set() *)
| EGet (endpoint : string)                 (* session.get(endpoint) *)
| ESave (filename : string)                (* save_to_csv(data, filename) *)
| EPrintSaved (filename : string) (timestamp : pyval)
| EPrintError (e : exn)
| ESleep (seconds : Z).                    (* asyncio.sleep(seconds) *)

(** The surroundings of one pass through the loop: the flag as read by
    the [while] test, the clock, the network and the disk. *)
Record cycle_env : Type := {
  shutdown_is_set : bool;
  clock : string;
  net : session;
  open_error : string -> option exn
}.

(** The statements of the [try] block that can raise: the record is
    built, saved, and its timestamp looked up for the message.  Returns
    how the block went on (the timestamp, or the exception), the calls it
    made and the disk it leaves. *)
Definition try_block (a : account) (env : cycle_env)
    (fs : gmap string csv_file)
  : result pyval * list event * gmap string csv_file :=
  let filename := fmt (name a) +:+ ".csv" in
  let gets := map (fun '(endpoint, _, _) => EGet endpoint) (endpoints a) in
  match fetch_data_for_account (net env) (clock env) a with
  | Raise e => (Raise e, gets, fs)
  | Ok data =>
      match save_to_csv (open_error env) data filename fs with
      | (Raise e, fs') => (Raise e, gets ++ [ESave filename], fs')
      | (Ok _, fs') =>
          match dict_get data "timestamp" with
          | None => (Raise (lib_error KeyError), gets ++ [ESave filename], fs')
          | Some timestamp => (Ok timestamp, gets ++ [ESave filename], fs')
          end
      end
  end.

(** The body of the [while] loop: after the [try] block went through,
    the message and the five-minute sleep; in the handler, the message
    and the one-minute sleep. *)
Definition cycle (a : account) (env : cycle_env) (fs : gmap string csv_file)
  : list event * gmap string csv_file :=
  let filename := fmt (name a) +:+ ".csv" in
  match try_block a env fs with
  | (Ok timestamp, calls, fs') =>
      (calls ++ [EPrintSaved filename timestamp; ESleep 300], fs')
  | (Raise e, calls, fs') =>
      (calls ++ [EPrintError e; ESleep 60], fs')
  end.

Inductive loop_state : Type := Running | Stopped.

Record run : Type := {
  state : loop_state;
  trace : list event;
  files : gmap string csv_file
}.

(** The loop over the environments of its first [length envs] passes.
    The run is [Stopped] when the [while] test found the event set, and
    [Running] when the given environments are used up. *)
Fixpoint monitor_account (a : account) (envs : list cycle_env)
    (fs : gmap string csv_file) : run :=
  match envs with
  | [] => {| state := Running; trace := []; files := fs |}
  | env :: rest =>
      if shutdown_is_set env then
        {| state := Stopped; trace := [ECheck true]; files := fs |}
      else
        let '(events, fs') := cycle a env fs in
        let r := monitor_account a rest fs' in
        {| state := state r;
           trace := ECheck false :: events ++ trace r;
           files := files r |}
  end.

(** ** Module level: ACCOUNTS and the start-up check *)

(** [os.getenv] *)
Definition environ : Type := string -> option string.

Definition ACCOUNTS (getenv : environ) : list account :=
  [ {| name := getenv "ACCOUNT_NAME1";
       address := getenv "TELLOR_ADDRESS1";
       valoper_address := getenv "TELLORVALOPER_ADDRESS1" |};
    {| name := getenv "ACCOUNT_NAME2";
       address := getenv "TELLOR_ADDRESS2";
       valoper_address := getenv "TELLORVALOPER_ADDRESS2" |};
    {| name := getenv "ACCOUNT_NAME3";
       address := getenv "TELLOR_ADDRESS3";
       valoper_address := getenv "TELLORVALOPER_ADDRESS3" |};
    {| name := getenv "ACCOUNT_NAME4";
       address := getenv "TELLOR_ADDRESS4";
       valoper_address := getenv "TELLORVALOPER_ADDRESS4" |} ].

(** [account.values()] *)
Definition values (a : account) : list (option string) :=
  [name a; address a; valoper_address a].

(** Truth value of [None] or a [str]. *)
Definition truthy (o : option string) : bool :=
  match o with
  | Some s => negb (String.eqb s "")
  | None => false
  end.

(** [for account in ACCOUNTS: if not all(account.values()): raise ...] *)
Fixpoint check_accounts (accounts : list account) : result unit :=
  match accounts with
  | [] => Ok tt
  | a :: rest =>
      if negb (forallb truthy (values a)) then
        Raise (Exn ValueError
                 (Some ("Missing required environment variables for account "
                          +:+ fmt (name a)
                          +:+ ". Please check your .env file.")))
      else check_accounts rest
  end.

(** [main_loop]: one [monitor_account] task per account. *)
Definition main_loop (accounts : list account)
  : list (list cycle_env -> gmap string csv_file -> run) :=
  map monitor_account accounts.

(** The script from its first line to the creation of the monitoring
    tasks: the module-level check runs first, and [main] is reached only
    when it did not raise. *)
Definition startup (getenv : environ)
  : result (list (list cycle_env -> gmap string csv_file -> run)) :=
  let accounts := ACCOUNTS getenv in
  _ ← check_accounts accounts;
  Ok (main_loop accounts).

(** ** The functions with their prints and with writes that can raise *)

(** The messages the script prints, by [print] call, with the values the
    text is made of. *)
Inductive message : Type :=
| PrintFetching (column endpoint : string)          (* line 50 *)
| PrintStatus (status : Z)                          (* line 51 *)
| PrintErrorResponse (error_text : string)          (* line 55 *)
| PrintResponseData (data : pyval)                  (* line 59 *)
| PrintExtracted (value : pyval)                    (* line 62 *)
| PrintErrorProcessing (column : string) (e : exn)  (* line 67 *)
| PrintAccount (name : option string)               (* line 73 *)
| PrintAddress (address : option string)            (* line 74 *)
| PrintValoper (valoper_address : option string)    (* line 75 *)
| PrintSaved (filename : string) (timestamp : pyval) (* line 127 *)
| PrintLoopError (name : option string) (e : exn).  (* line 131 *)

(** [print(...)] on a terminal that raises [stdout m] for the message
    [m], when it is not [None]: the text cannot be encoded, the stream is
    closed, the pipe is broken. *)
Definition py_print (stdout : message -> option exn) (m : message)
  : result unit :=
  match stdout m with
  | Some e => Raise e
  | None => Ok tt
  end.

Definition fetch_endpoint_io (stdout : message -> option exn) (s : session)
    (endpoint column : string) (extract_func : pyval -> result pyval)
  : result (string * pyval) :=
  try_except
    (match s endpoint with
     | GetRaises e => Raise e
     | Response status text json =>
         py_print stdout (PrintFetching column endpoint);;
         py_print stdout (PrintStatus status);;
         if negb (Z.eqb status 200) then
           error_text ← text;
           py_print stdout (PrintErrorResponse error_text);;
           Ok (column, PStr "")
         else
           data ← json;
           py_print stdout (PrintResponseData data);;
           value ← extract_func data;
           py_print stdout (PrintExtracted value);;
           Ok (column, value)
     end)
    (fun e =>
       py_print stdout (PrintErrorProcessing column e);;
       Ok (column, PStr "")).

(** The three prints that open [fetch_data_for_account]. *)
Definition announce (stdout : message -> option exn) (a : account)
  : result unit :=
  py_print stdout (PrintAccount (name a));;
  py_print stdout (PrintAddress (address a));;
  py_print stdout (PrintValoper (valoper_address a)).

Definition fetch_data_for_account_io (stdout : message -> option exn)
    (s : session) (now : string) (a : account) : result pydict :=
  announce stdout a;;
  let results := [("timestamp", PStr now)] in
  let tasks :=
    map (fun '(endpoint, column, extract_func) =>
           fetch_endpoint_io stdout s endpoint column extract_func)
        (endpoints a) in
  responses ← gather tasks;
  Ok (fold_left (fun results '(column, value) => dict_set results column value)
                responses results).

(** [writer.writerow]: [write_error row] is what turning the cells into
    text or writing them raises, if anything; a write that raises adds
    nothing of its record to the file. *)
Definition writerow_io (write_error : list pyval -> option exn)
    (w : DictWriter) (rowdict : pydict) (f : csv_file)
  : result unit * csv_file :=
  match dict_to_list w rowdict with
  | Ok row =>
      match write_error row with
      | Some e => (Raise e, f)
      | None => (Ok tt, f ++ [row])
      end
  | Raise e => (Raise e, f)
  end.

Definition writeheader_io (write_error : list pyval -> option exn)
    (w : DictWriter) (f : csv_file) : result unit * csv_file :=
  writerow_io write_error w (map (fun k => (k, PStr k)) (fieldnames w)) f.

Definition save_to_csv_io (open_error : string -> option exn)
    (write_error : list pyval -> option exn) (data : pydict)
    (filename : string) (fs : gmap string csv_file)
  : result unit * gmap string csv_file :=
  let file_exists := bool_decide (is_Some (fs !! filename)) in
  match open_error filename with
  | Some e => (Raise e, fs)
  | None =>
      let f := default [] (fs !! filename) in
      let writer := {| fieldnames := dict_keys data |} in
      let '(r1, f1) :=
        if negb file_exists then writeheader_io write_error writer f
        else (Ok tt, f) in
      match r1 with
      | Raise e => (Raise e, <[filename := f1]> fs)
      | Ok _ =>
          let '(r2, f2) := writerow_io write_error writer data f1 in
          (r2, <[filename := f2]> fs)
      end
  end.

(** The surroundings of one pass, with the terminal and the writes. *)
Record pass : Type := {
  around : cycle_env;
  stdout : message -> option exn;
  write_error : list pyval -> option exn
}.

(** The [try] block, up to the sleep: how it went on, the calls it made
    and the messages it printed, and the disk it leaves. *)
Definition try_block_io (a : account) (p : pass) (fs : gmap string csv_file)
  : result unit * list event * gmap string csv_file :=
  let filename := fmt (name a) +:+ ".csv" in
  let gets := map (fun '(endpoint, _, _) => EGet endpoint) (endpoints a) in
  match
    fetch_data_for_account_io (stdout p) (net (around p)) (clock (around p)) a
  with
  | Raise e =>
      (* no request is made when one of the opening prints raises *)
      (Raise e, match announce (stdout p) a with Ok _ => gets | Raise _ => [] end,
       fs)
  | Ok data =>
      match
        save_to_csv_io (open_error (around p)) (write_error p) data filename fs
      with
      | (Raise e, fs') => (Raise e, gets ++ [ESave filename], fs')
      | (Ok _, fs') =>
          match dict_get data "timestamp" with
          | None =>
              (Raise (lib_error KeyError), gets ++ [ESave filename], fs')
          | Some timestamp =>
              match stdout p (PrintSaved filename timestamp) with
              | Some e => (Raise e, gets ++ [ESave filename], fs')
              | None =>
                  (Ok tt,
                   gets ++ [ESave filename; EPrintSaved filename timestamp],
                   fs')
              end
          end
      end
  end.

(** The body of the [while] loop.  The first component is the exception
    that leaves the loop, if any: the one the handler's own [print]
    raises. *)
Definition cycle_io (a : account) (p : pass) (fs : gmap string csv_file)
  : option exn * list event * gmap string csv_file :=
  match try_block_io a p fs with
  | (Ok _, calls, fs') => (None, calls ++ [ESleep 300], fs')
  | (Raise e, calls, fs') =>
      match stdout p (PrintLoopError (name a) e) with
      | Some e' => (Some e', calls, fs')
      | None => (None, calls ++ [EPrintError e; ESleep 60], fs')
      end
  end.

(** How a run stands after the passes it was given: still in the loop,
    out of it because the [while] test found the event set, or out of it
    by an exception. *)
Inductive loop_end : Type :=
| Looping
| Finished
| Failed (e : exn).

Record run_io : Type := {
  ending : loop_end;
  events : list event;
  disk : gmap string csv_file
}.

Fixpoint monitor_account_io (a : account) (passes : list pass)
    (fs : gmap string csv_file) : run_io :=
  match passes with
  | [] => {| ending := Looping; events := []; disk := fs |}
  | p :: rest =>
      if shutdown_is_set (around p) then
        {| ending := Finished; events := [ECheck true]; disk := fs |}
      else
        match cycle_io a p fs with
        | (Some e, evs, fs') =>
            {| ending := Failed e; events := ECheck false :: evs;
               disk := fs' |}
        | (None, evs, fs') =>
            let r := monitor_account_io a rest fs' in
            {| ending := ending r;
               events := ECheck false :: evs ++ events r;
               disk := disk r |}
        end
  end.

(** A pass on a terminal that takes every message and a disk whose
    writes go through. *)
Definition quiet (env : cycle_env) : pass :=
  {| around := env; stdout := fun _ => None; write_error := fun _ => None |}.

(** ** Inputs of the examples *)

(** The account of the scenarios. *)
Definition sample_account : account :=
  {| name := Some "A"; address := Some "addr1";
     valoper_address := Some "val1" |}.

(** Every request fails to connect. *)
Definition net_down : session :=
  fun _ => GetRaises (lib_error ClientError).

(** Every endpoint answers 200 with the empty JSON object. *)
Definition net_empty_objects : session :=
  fun _ => Response 200 (Ok "{}") (Ok (PDict [])).

(** Every endpoint answers 200 with a body that holds all the fields any
    of the rules reads. *)
Definition full_body : pyval :=
  PDict [ ("balance", PDict [("amount", PStr "100")]);
          ("total", PList [PDict [("amount", PStr "5")]]);
          ("rewards", PDict [("rewards", PList [PDict [("amount", PStr "2")]])]);
          ("tips", PList [PDict [("amount", PDict [("amount", PStr "1")])]]);
          ("validator", PDict [("delegator_shares", PStr "1000")]);
          ("delegation_responses",
           PList [PDict [("balance", PDict [("amount", PStr "50")])]]) ].

Definition net_full : session :=
  fun _ => Response 200 (Ok "...") (Ok full_body).

Definition env_running (s : session) (disk : string -> option exn)
  : cycle_env :=
  {| shutdown_is_set := false; clock := "2024-01-01 00:00:00";
     net := s; open_error := disk |}.

Definition env_shutdown : cycle_env :=
  {| shutdown_is_set := true; clock := "2024-01-01 00:05:00";
     net := net_down; open_error := fun _ => None |}.

(** The records [fetch_data_for_account] builds at that time when every
    request fails, and when every body is the empty object. *)
Definition snapshot_down : pydict :=
  [ ("timestamp", PStr "2024-01-01 00:00:00"); ("account_balance", PStr "");
    ("rewards", PStr ""); ("outstanding_rewards", PStr "");
    ("available-tips", PStr ""); ("delegator_shares", PStr "");
    ("delegations", PStr "") ].

Definition snapshot_empty_objects : pydict :=
  [ ("timestamp", PStr "2024-01-01 00:00:00"); ("account_balance", PStr "");
    ("rewards", PInt 0); ("outstanding_rewards", PStr "");
    ("available-tips", PInt 0); ("delegator_shares", PStr "");
    ("delegations", PStr "") ].

(** A summed list whose second item lacks every key, under each of the
    three list keys, and an endpoint answering 200 with it. *)
Definition items_one_bad : list pyval :=
  [PDict [("amount", PStr "5")]; PDict []].

Definition body_one_bad : pydict :=
  [ ("total", PList items_one_bad); ("tips", PList items_one_bad);
    ("delegation_responses", PList items_one_bad) ].

Definition net_one_bad : session :=
  fun _ => Response 200 (Ok "...") (Ok (PDict body_one_bad)).

(** An account whose name is unset. *)
Definition nameless_account : account :=
  {| name := None; address := Some "addr2"; valoper_address := Some "val2" |}.






Definition disk_ok : string -> option exn := fun _ => None.

Definition disk_denied : string -> option exn :=
  fun _ => Some (lib_error OSError).

(** ** Notions the statements use *)

(** The snapshot columns, in the order of the [endpoints] list, after the
    timestamp. *)
Definition COLUMNS : list string :=
  ["timestamp"; "account_balance"; "rewards"; "outstanding_rewards";
   "available-tips"; "delegator_shares"; "delegations"].

(** A field fetch failed: the request raised, the status is not 200, the
    body is not JSON, or the extraction rule raised. *)
Definition fetch_failed (s : session) (endpoint : string)
    (extract_func : pyval -> result pyval) : bool :=
  match s endpoint with
  | GetRaises _ => true
  | Response status _ json =>
      negb (Z.eqb status 200)
      || match json with
         | Raise _ => true
         | Ok data =>
             match extract_func data with
             | Raise _ => true
             | Ok _ => false
             end
         end
  end.

(** What [fetch_endpoint] pairs with the column, read off the outcome of
    the request. *)
Definition fetched_value (s : session) (endpoint : string)
    (extract_func : pyval -> result pyval) : pyval :=
  match s endpoint with
  | Response status _ (Ok data) =>
      if Z.eqb status 200 then
        match extract_func data with
        | Ok value => value
        | Raise _ => PStr ""
        end
      else PStr ""
  | _ => PStr ""
  end.

Definition is_check (e : event) : bool :=
  match e with ECheck _ => true | _ => false end.

Definition is_sleep (e : event) : bool :=
  match e with ESleep _ => true | _ => false end.

Definition is_print (e : event) : bool :=
  match e with EPrintSaved _ _ | EPrintError _ => true | _ => false end.

(** The events of one full pass through the loop: the [while] test finds
    the event clear, then come calls that neither read the event nor
    sleep, then one message, then one sleep. *)
Definition cycle_block (block : list event) : Prop :=
  exists calls message seconds,
    block = ECheck false :: calls ++ [message; ESleep seconds] /\
    Forall (fun e => is_check e = false /\ is_sleep e = false) calls /\
    is_print message = true.

(** Every sleep in a trace comes directly after a test of the shutdown
    event and is directly followed by another one. *)
Definition polled_around_each_sleep (t : list event) : Prop :=
  forall (i : nat) (seconds : Z),
    t !! S i = Some (ESleep seconds) ->
    (exists is_set, t !! i = Some (ECheck is_set)) /\
    (exists is_set, t !! S (S i) = Some (ECheck is_set)).

(** The path an extraction rule expects in the body, step by step:
    [x[k]], [x.get(k, [])], [x[i]] and the iteration over a list. *)
Inductive step : Type :=
| Key (k : string)
| KeyOrEmpty (k : string)
| Index (i : nat)
| Each.

Definition expected_path (column : string) : list step :=
  if String.eqb column "account_balance" then
    [Key "balance"; Key "amount"]
  else if String.eqb column "rewards" then
    [KeyOrEmpty "total"; Each; Key "amount"]
  else if String.eqb column "outstanding_rewards" then
    [Key "rewards"; Key "rewards"; Index 0; Key "amount"]
  else if String.eqb column "available-tips" then
    [KeyOrEmpty "tips"; Each; Key "amount"; Key "amount"]
  else if String.eqb column "delegator_shares" then
    [Key "validator"; Key "delegator_shares"]
  else if String.eqb column "delegations" then
    [Key "delegation_responses"; Each; Key "balance"; Key "amount"]
  else [].

(** The body misses the path: along it, an object lacks the key, a list
    lacks the index, a list to go through is empty, or one of its items
    misses the rest of the path. *)
Fixpoint missing (path : list step) (x : pyval) : bool :=
  match path with
  | [] => false
  | Key k :: rest | KeyOrEmpty k :: rest =>
      match x with
      | PDict d =>
          match dict_get d k with
          | Some v => missing rest v
          | None => true
          end
      | _ => false
      end
  | Index i :: rest =>
      match x with
      | PList items =>
          match nth_error items i with
          | Some v => missing rest v
          | None => true
          end
      | _ => false
      end
  | Each :: rest =>
      match x with
      | PList [] => true
      | PList items => existsb (missing rest) items
      | _ => false
      end
  end.

(** The path ends in a sum over no item at all: the list to go through
    is empty, or its key is absent where the rule reads it with
    [.get(k, [])]. *)
Fixpoint sums_nothing (path : list step) (x : pyval) : bool :=
  match path with
  | Key k :: rest =>
      match x with
      | PDict d =>
          match dict_get d k with
          | Some v => sums_nothing rest v
          | None => false
          end
      | _ => false
      end
  | KeyOrEmpty k :: rest =>
      match x with
      | PDict d =>
          match dict_get d k with
          | Some v => sums_nothing rest v
          | None => sums_nothing rest (PList [])
          end
      | _ => false
      end
  | Each :: _ =>
      match x with
      | PList [] => true
      | _ => false
      end
  | _ => false
  end.

(** The two records [save_to_csv] can write for [data]: the header, which
    names the keys, and the data row, which holds the value of each key,
    both in the order of [data.keys()]. *)
Definition header_of (data : pydict) : list pyval :=
  map PStr (dict_keys data).

Definition row_of (data : pydict) : list pyval :=
  map (fun k => default (PStr "") (dict_get data k)) (dict_keys data).

(** Saving several records to one path, one call after the other, with
    a disk on which [open] succeeds or fails as [open_error] says. *)
Fixpoint save_each (open_error : string -> option exn)
    (snapshots : list pydict) (filename : string)
    (fs : gmap string csv_file) : result unit * gmap string csv_file :=
  match snapshots with
  | [] => (Ok tt, fs)
  | data :: rest =>
      match save_to_csv open_error data filename fs with
      | (Ok _, fs') => save_each open_error rest filename fs'
      | (Raise e, fs') => (Raise e, fs')
      end
  end.

(** ** Notions of the further properties *)

(** What each of the three sums adds up for one item of its list. *)
Definition reward_amount (reward : pyval) : result F :=
  amount ← getitem reward "amount";
  py_float amount.

Definition tip_amount (tip : pyval) : result F :=
  outer ← getitem tip "amount";
  amount ← getitem outer "amount";
  py_float amount.

Definition delegation_amount (delegation : pyval) : result F :=
  balance ← getitem delegation "balance";
  amount ← getitem balance "amount";
  py_float amount.

(** The network [s] with what one URL meets replaced by [o]. *)
Definition override (s : session) (url : string) (o : http_outcome)
  : session :=
  fun u => if String.eqb u url then o else s u.

(** The file [monitor_account] writes for an account. *)
Definition csv_name (a : account) : string := fmt (name a) +:+ ".csv".

(** The record a pass builds in its environment. *)
Definition the_snapshot (a : account) (env : cycle_env) : pydict :=
  match fetch_data_for_account (net env) (clock env) a with
  | Ok data => data
  | Raise _ => []
  end.

(** The data rows of the passes that build their record and whose
    [open] succeeds, in pass order. *)
Definition saved_rows_io (a : account) (passes : list pass)
  : list (list pyval) :=
  flat_map (fun p =>
              match fetch_data_for_account_io (stdout p) (net (around p))
                      (clock (around p)) a with
              | Ok data =>
                  match open_error (around p) (csv_name a) with
                  | None => [row_of data]
                  | Some _ => []
                  end
              | Raise _ => []
              end)
           passes.

(** The record of a pass in which every field fetch failed. *)
Definition blank_snapshot (now : string) : pydict :=
  ("timestamp", PStr now) :: map (fun column => (column, PStr "")) (tl COLUMNS).

(** The fetch goes through with [value]: the response has status 200,
    its body parses, the rule returns [value], and each of the four
    prints on the way succeeds. *)
Definition fetch_goes_through (stdout : message -> option exn) (s : session)
    (endpoint column : string) (extract_func : pyval -> result pyval)
    (value : pyval) : Prop :=
  exists text data,
    s endpoint = Response 200 text (Ok data) /\
    extract_func data = Ok value /\
    stdout (PrintFetching column endpoint) = None /\
    stdout (PrintStatus 200) = None /\
    stdout (PrintResponseData data) = None /\
    stdout (PrintExtracted value) = None.

(** * Properties *)

(** ** fetch_endpoint *)

Lemma fetch_endpoint_value (s : session) (endpoint column : string)
    (extract_func : pyval -> result pyval) :
  fetch_endpoint s endpoint column extract_func
  = Ok (column, fetched_value s endpoint extract_func).
Proof.
  unfold fetch_endpoint, fetched_value.
  destruct (s endpoint) as [e | status text json]; simpl; [reflexivity |].
  destruct (Z.eqb status 200); simpl.
  - destruct json as [data | e]; simpl; [| reflexivity].
    destruct (extract_func data); reflexivity.
  - destruct text, json; reflexivity.
Qed.

Lemma fetched_value_failed (s : session) (endpoint : string)
    (extract_func : pyval -> result pyval) :
  fetch_failed s endpoint extract_func = true ->
  fetched_value s endpoint extract_func = PStr "".
Proof.
  unfold fetch_failed, fetched_value.
  destruct (s endpoint) as [e | status text json]; [reflexivity |].
  destruct (Z.eqb status 200); simpl.
  - destruct json as [data | e]; [| reflexivity].
    destruct (extract_func data); [discriminate | reflexivity].
  - destruct json; reflexivity.
Qed.

(** ** fetch_data_for_account *)

(** The record in full: the timestamp, then one entry per endpoint in the
    order of the list. *)
Lemma fetch_data_for_account_value (s : session) (now : string) (a : account) :
  fetch_data_for_account s now a
  = Ok (("timestamp", PStr now)
          :: map (fun '(endpoint, column, extract_func) =>
                    (column, fetched_value s endpoint extract_func))
                 (endpoints a)).
Proof.
  unfold fetch_data_for_account, endpoints, gather.
  cbn [map for_each].
  rewrite !fetch_endpoint_value.
  reflexivity.
Qed.

(** C2. For every account and whatever the six requests meet,
    [fetch_data_for_account] returns a record whose keys are exactly
    timestamp, account_balance, rewards, outstanding_rewards,
    available-tips, delegator_shares and delegations; each column holds
    the value its field fetch returned, which is the empty string when
    that fetch failed. *)
Theorem snapshot_has_exactly_the_columns (s : session) (now : string)
    (a : account) :
  exists data,
    fetch_data_for_account s now a = Ok data /\
    dict_keys data = COLUMNS /\
    dict_get data "timestamp" = Some (PStr now) /\
    Forall (fun '(endpoint, column, extract_func) =>
              (exists value,
                  fetch_endpoint s endpoint column extract_func
                  = Ok (column, value) /\
                  dict_get data column = Some value) /\
              (fetch_failed s endpoint extract_func = true ->
               dict_get data column = Some (PStr "")))
           (endpoints a).
Proof.
  eexists. split; [apply fetch_data_for_account_value |].
  split; [reflexivity |]. split; [reflexivity |].
  unfold endpoints. cbn [map].
  repeat apply Forall_cons_2; try apply Forall_nil_2;
    (split;
     [ eexists; split; [apply fetch_endpoint_value | reflexivity]
     | intros Hfail; cbn; f_equal; apply fetched_value_failed, Hfail ]).
Qed.

(** ** save_to_csv *)

Lemma dict_get_header (keys : list string) (k : string) :
  In k keys ->
  dict_get (map (fun k => (k, PStr k)) keys) k = Some (PStr k).
Proof.
  induction keys as [| k' keys IH]; simpl; [intros [] |].
  intros Hin.
  destruct (String.eqb k' k) eqn:Heq.
  - apply String.eqb_eq in Heq. subst. reflexivity.
  - destruct Hin as [-> | Hin]; [| auto].
    rewrite String.eqb_refl in Heq. discriminate.
Qed.

Lemma keys_are_fieldnames (keys : list string) :
  forallb (fun k => existsb (String.eqb k) keys) keys = true.
Proof.
  apply forallb_forall. intros k Hin.
  apply existsb_exists. exists k. split; [assumption |].
  apply String.eqb_refl.
Qed.

Lemma writerow_data (data : pydict) (f : csv_file) :
  writerow {| fieldnames := dict_keys data |} data f
  = (Ok tt, f ++ [row_of data]).
Proof.
  unfold writerow, dict_to_list. cbn [fieldnames].
  rewrite keys_are_fieldnames. reflexivity.
Qed.

Lemma writeheader_data (data : pydict) (f : csv_file) :
  writeheader {| fieldnames := dict_keys data |} f
  = (Ok tt, f ++ [header_of data]).
Proof.
  unfold writeheader, writerow, dict_to_list. cbn [fieldnames].
  replace (dict_keys (map (fun k => (k, PStr k)) (dict_keys data)))
    with (dict_keys data).
  2:{ unfold dict_keys. rewrite map_map. cbn [fst]. rewrite map_id.
      reflexivity. }
  rewrite keys_are_fieldnames.
  do 3 f_equal. unfold header_of.
  apply map_ext_in. intros k Hin.
  rewrite dict_get_header by assumption. reflexivity.
Qed.

(** What a call whose [open] succeeds leaves on disk. *)
Lemma save_to_csv_written (open_error : string -> option exn)
    (data : pydict) (filename : string) (fs : gmap string csv_file) :
  open_error filename = None ->
  save_to_csv open_error data filename fs
  = (Ok tt,
     <[filename := match fs !! filename with
                   | Some content => content ++ [row_of data]
                   | None => [header_of data; row_of data]
                   end]> fs).
Proof.
  intros Hopen. unfold save_to_csv. rewrite Hopen.
  destruct (fs !! filename) as [content |] eqn:Hfile.
  - rewrite bool_decide_eq_true_2 by eauto. cbn.
    rewrite writerow_data. reflexivity.
  - rewrite bool_decide_eq_false_2 by (intros [? ?]; discriminate). cbn.
    rewrite writeheader_data, writerow_data. reflexivity.
Qed.

Lemma save_to_csv_refused (open_error : string -> option exn)
    (data : pydict) (filename : string) (fs : gmap string csv_file)
    (e : exn) :
  open_error filename = Some e ->
  save_to_csv open_error data filename fs = (Raise e, fs).
Proof.
  intros Hopen. unfold save_to_csv. rewrite Hopen. reflexivity.
Qed.

Lemma save_each_appends (snapshots : list pydict) (filename : string) :
  forall (fs : gmap string csv_file) (content : csv_file),
    fs !! filename = Some content ->
    save_each disk_ok snapshots filename fs
    = (Ok tt, <[filename := content ++ map row_of snapshots]> fs).
Proof.
  induction snapshots as [| data rest IH]; intros fs content Hfile.
  - cbn. rewrite app_nil_r, insert_id by assumption. reflexivity.
  - cbn [save_each].
    rewrite save_to_csv_written by reflexivity. rewrite Hfile.
    rewrite (IH _ (content ++ [row_of data])) by apply lookup_insert_eq.
    rewrite insert_insert_eq, <- app_assoc. reflexivity.
Qed.

Lemma snapshot_records (data : pydict) :
  (exists s now a, fetch_data_for_account s now a = Ok data) ->
  header_of data = map PStr COLUMNS /\
  Forall2 (fun column cell => dict_get data column = Some cell)
          COLUMNS (row_of data).
Proof.
  intros (s & now & a & Hdata).
  rewrite fetch_data_for_account_value in Hdata.
  injection Hdata as <-.
  split; [reflexivity |].
  unfold row_of, endpoints. cbn.
  repeat apply Forall2_cons_2; try apply Forall2_nil_2; reflexivity.
Qed.

(** C3. Saving one or more records built by [fetch_data_for_account] to
    a path that does not exist, on a disk where [open] succeeds, leaves a
    file that starts with one header record, listing timestamp,
    account_balance, rewards, outstanding_rewards, available-tips,
    delegator_shares and delegations in this order, followed by one data
    record per saved record, in saving order; the cells of each data
    record are the values of these columns in the same order. *)
Theorem fresh_file_has_header_then_rows (filename : string)
    (fs : gmap string csv_file) (first : pydict) (more : list pydict) :
  fs !! filename = None ->
  Forall (fun data => exists s now a, fetch_data_for_account s now a = Ok data)
         (first :: more) ->
  exists rows,
    save_each disk_ok (first :: more) filename fs
    = (Ok tt, <[filename := map PStr COLUMNS :: rows]> fs) /\
    length rows = length (first :: more) /\
    Forall2 (fun data row =>
               Forall2 (fun column cell => dict_get data column = Some cell)
                       COLUMNS row)
            (first :: more) rows.
Proof.
  intros Hfresh Hsnap.
  exists (map row_of (first :: more)).
  split; [| split].
  - cbn [save_each].
    rewrite save_to_csv_written by reflexivity. rewrite Hfresh.
    rewrite (save_each_appends more filename _ [header_of first; row_of first])
      by apply lookup_insert_eq.
    rewrite insert_insert_eq.
    apply Forall_cons_1 in Hsnap as [Hfirst _].
    apply snapshot_records in Hfirst as [-> _].
    reflexivity.
  - apply length_map.
  - induction Hsnap as [| data rest Hdata _ IH]; cbn [map].
    + apply Forall2_nil_2.
    + apply Forall2_cons_2; [| exact IH].
      apply snapshot_records, Hdata.
Qed.

(** C7. A call of [save_to_csv] on a path that exists, when [open]
    succeeds, keeps the records the file holds and adds exactly one
    record after them, the data row; no header is written.  When [open]
    raises, the exception reaches the caller and the disk is unchanged. *)
Theorem existing_file_gets_one_row (open_error : string -> option exn)
    (data : pydict) (filename : string) (fs : gmap string csv_file)
    (content : csv_file) :
  fs !! filename = Some content ->
  (open_error filename = None ->
   save_to_csv open_error data filename fs
   = (Ok tt, <[filename := content ++ [row_of data]]> fs)) /\
  (forall e,
      open_error filename = Some e ->
      save_to_csv open_error data filename fs = (Raise e, fs)).
Proof.
  intros Hfile. split.
  - intros Hopen. rewrite save_to_csv_written by assumption.
    rewrite Hfile. reflexivity.
  - intros e Hopen. apply save_to_csv_refused, Hopen.
Qed.

(** C10. Whether [save_to_csv] writes a header depends on the existence
    of the path alone: on a path that exists with no record at all (an
    empty file) it writes the data row only, as it does whatever the file
    holds; it writes the header before the data row exactly when the path
    does not exist. *)
Theorem header_depends_on_existence_only (open_error : string -> option exn)
    (data : pydict) (filename : string) (fs : gmap string csv_file) :
  open_error filename = None ->
  (fs !! filename = Some [] ->
   save_to_csv open_error data filename fs
   = (Ok tt, <[filename := [row_of data]]> fs)) /\
  snd (save_to_csv open_error data filename fs) !! filename
  = Some (default [] (fs !! filename)
            ++ (if bool_decide (is_Some (fs !! filename))
                then [row_of data]
                else [header_of data; row_of data])).
Proof.
  intros Hopen. rewrite save_to_csv_written by assumption. split.
  - intros ->. reflexivity.
  - cbn [snd]. rewrite lookup_insert_eq.
    destruct (fs !! filename) as [content |] eqn:Hfile.
    + rewrite bool_decide_eq_true_2 by eauto. reflexivity.
    + rewrite bool_decide_eq_false_2 by (intros [? ?]; discriminate).
      reflexivity.
Qed.

(** ** monitor_account *)

(** The calls of a pass: six requests, then the save. *)
Lemma try_block_calls (a : account) (env : cycle_env)
    (fs : gmap string csv_file) :
  snd (fst (try_block a env fs))
  = map (fun '(endpoint, _, _) => EGet endpoint) (endpoints a)
      ++ [ESave (fmt (name a) +:+ ".csv")].
Proof.
  unfold try_block. rewrite fetch_data_for_account_value.
  destruct (open_error env (fmt (name a) +:+ ".csv")) as [e |] eqn:Hopen.
  - erewrite save_to_csv_refused by eassumption. reflexivity.
  - rewrite save_to_csv_written by assumption. reflexivity.
Qed.

Lemma cycle_is_block (a : account) (env : cycle_env)
    (fs : gmap string csv_file) :
  cycle_block (ECheck false :: fst (cycle a env fs)).
Proof.
  pose proof (try_block_calls a env fs) as Hcalls.
  unfold cycle.
  destruct (try_block a env fs) as [[outcome calls] fs'].
  cbn [fst snd] in Hcalls. subst calls.
  assert (Forall (fun e : event => is_check e = false /\ is_sleep e = false)
            (map (fun '(endpoint, _, _) => EGet endpoint) (endpoints a)
               ++ [ESave (fmt (name a) +:+ ".csv")])) as Hquiet.
  { unfold endpoints. cbn [map app].
    repeat apply Forall_cons_2; try apply Forall_nil_2; split; reflexivity. }
  destruct outcome as [timestamp | e]; cbn [fst];
    eexists _, _, _; (split; [reflexivity |]); split;
    solve [exact Hquiet | reflexivity].
Qed.

(** C9, as the code has it. The loop reads the shutdown event once per
    pass, in the [while] test, and nowhere else: the trace of every run
    is a sequence of blocks, each made of that one test, calls that do
    not read the event, one message and one sleep, followed by the test
    that stops the loop when the run has stopped.  So the read that comes
    directly after a sleep is the test of the next pass, and what comes
    directly before a sleep is a message, not a read. *)
Theorem signal_is_read_once_per_pass (a : account) (envs : list cycle_env)
    (fs : gmap string csv_file) :
  let r := monitor_account a envs fs in
  exists blocks,
    Forall cycle_block blocks /\
    trace r
    = concat blocks
        ++ match state r with
           | Stopped => [ECheck true]
           | Running => []
           end.
Proof.
  cbn zeta. revert fs.
  induction envs as [| env envs IH]; intros fs; cbn [monitor_account].
  - exists []. split; [apply Forall_nil_2 | reflexivity].
  - destruct (shutdown_is_set env).
    + exists []. split; [apply Forall_nil_2 | reflexivity].
    + pose proof (cycle_is_block a env fs) as Hblock.
      destruct (cycle a env fs) as [events fs']. cbn [fst] in Hblock.
      destruct (IH fs') as (blocks & Hblocks & Htrace).
      exists ((ECheck false :: events) :: blocks).
      split; [apply Forall_cons_2; assumption |].
      cbn [state trace concat app].
      rewrite Htrace, <- app_assoc. reflexivity.
Qed.

(** ** The extraction rules on bodies that miss their path *)

Lemma for_each_raises {A B : Type} (f : A -> result B) (xs : list A)
    (bad : A -> bool) :
  (forall x, bad x = true -> exists e, f x = Raise e) ->
  existsb bad xs = true ->
  exists e, for_each f xs = Raise e.
Proof.
  intros Hbad. induction xs as [| x xs IH]; cbn [existsb for_each].
  - discriminate.
  - intros Hex. destruct (f x) as [y | e] eqn:Hfx; cbn; [| eauto].
    destruct (bad x) eqn:Hx.
    + destruct (Hbad x Hx) as [e He]. congruence.
    + destruct (IH Hex) as [e ->]. cbn. eauto.
Qed.

Lemma sum_over_raises (term : pyval -> result F) (items : list pyval)
    (bad : pyval -> bool) :
  (forall x, bad x = true -> exists e, term x = Raise e) ->
  existsb bad items = true ->
  exists e, sum_over term items = Raise e.
Proof.
  intros Hbad Hex. unfold sum_over.
  destruct (for_each_raises term items bad Hbad Hex) as [e ->].
  cbn. eauto.
Qed.

(** One [x[k]] step on a body that misses the path from there. *)
Lemma getitem_missing (k : string) (rest : list step) (x : pyval) :
  missing (Key k :: rest) x = true ->
  getitem x k = Raise (lib_error KeyError)
  \/ exists v, getitem x k = Ok v /\ missing rest v = true.
Proof.
  destruct x as [| | | | | | d]; cbn; try discriminate.
  destruct (dict_get d k) as [v |]; eauto.
Qed.

Ltac key_step H :=
  apply getitem_missing in H as [-> | (? & -> & H)]; cbn [mbind result_bind];
  [eauto | ].

Lemma two_keys_missing (k1 k2 : string) (x : pyval) :
  missing [Key k1; Key k2] x = true ->
  exists e, (v ← getitem x k1; getitem v k2) = Raise e.
Proof.
  intros H. key_step H. key_step H. discriminate.
Qed.

Lemma amount_term_missing (x : pyval) :
  missing [Key "amount"] x = true ->
  exists e, (amount ← getitem x "amount"; py_float amount) = Raise e.
Proof.
  intros H. key_step H. discriminate.
Qed.

Lemma nested_amount_term_missing (k : string) (x : pyval) :
  missing [Key k; Key "amount"] x = true ->
  exists e,
    (outer ← getitem x k; amount ← getitem outer "amount"; py_float amount)
    = Raise e.
Proof.
  intros H. key_step H. key_step H. discriminate.
Qed.

(** C6, as the code has it. For each of the six field specifications, a
    200 response whose JSON body misses the extraction path never makes
    the fetch raise; the column value is the empty string, except where
    the rule then sums over no item at all (the rewards, available-tips
    or delegations list is empty, or the total or tips key is absent and
    read with an empty-list default), where the value is the integer 0. *)
Theorem missing_path_gives_empty_or_zero (a : account) (s : session)
    (endpoint column : string) (extract_func : pyval -> result pyval)
    (text : result string) (data : pyval) :
  In (endpoint, column, extract_func) (endpoints a) ->
  s endpoint = Response 200 text (Ok data) ->
  missing (expected_path column) data = true ->
  fetch_endpoint s endpoint column extract_func
  = Ok (column,
        if sums_nothing (expected_path column) data then PInt 0
        else PStr "").
Proof.
  intros Hin Hresp Hmiss.
  rewrite fetch_endpoint_value. unfold fetched_value. rewrite Hresp.
  cbn [Z.eqb Pos.eqb]. do 2 f_equal.
  unfold endpoints in Hin. cbn [In] in Hin.
  destruct Hin as [H | [H | [H | [H | [H | [H | []]]]]]];
    injection H as <- <- <-; clear Hresp;
    cbn [expected_path String.eqb Ascii.eqb Bool.eqb] in *.
  - (* account_balance *)
    unfold extract_account_balance.
    destruct (two_keys_missing _ _ _ Hmiss) as [e ->].
    destruct data as [| | | | | | d]; try discriminate. cbn in *.
    destruct (dict_get d "balance") as [[| | | | | | d'] |];
      try discriminate; try reflexivity.
    cbn in *. destruct (dict_get d' "amount"); [discriminate | reflexivity].
  - (* rewards *)
    unfold extract_rewards.
    destruct data as [| | | | | | d]; try discriminate. cbn in *.
    destruct (dict_get d "total") as [[| | | | | items |] |];
      try discriminate; try reflexivity.
    destruct items as [| item items]; [reflexivity |].
    cbn [mbind result_bind iterate].
    destruct (sum_over_raises _ _ _ amount_term_missing Hmiss) as [e ->].
    reflexivity.
  - (* outstanding_rewards *)
    unfold extract_outstanding_rewards.
    destruct data as [| | | | | | d]; try discriminate. cbn in *.
    destruct (dict_get d "rewards") as [[| | | | | | d'] |];
      try discriminate; try reflexivity.
    cbn in *.
    destruct (dict_get d' "rewards") as [[| | | | | items |] |];
      try discriminate; try reflexivity.
    cbn in *.
    destruct items as [| [| | | | | | d''] items];
      try discriminate; try reflexivity.
    cbn in *. destruct (dict_get d'' "amount"); [discriminate | reflexivity].
  - (* available-tips *)
    unfold extract_available_tips.
    destruct data as [| | | | | | d]; try discriminate. cbn in *.
    destruct (dict_get d "tips") as [[| | | | | items |] |];
      try discriminate; try reflexivity.
    destruct items as [| item items]; [reflexivity |].
    cbn [mbind result_bind iterate].
    destruct (sum_over_raises _ _ _ (nested_amount_term_missing "amount")
                Hmiss) as [e ->].
    reflexivity.
  - (* delegator_shares *)
    unfold extract_delegator_shares.
    destruct (two_keys_missing _ _ _ Hmiss) as [e ->].
    destruct data as [| | | | | | d]; try discriminate. cbn in *.
    destruct (dict_get d "validator") as [[| | | | | | d'] |];
      try discriminate; try reflexivity.
    cbn in *.
    destruct (dict_get d' "delegator_shares"); [discriminate | reflexivity].
  - (* delegations *)
    unfold extract_delegations.
    destruct data as [| | | | | | d]; try discriminate. cbn in *.
    destruct (dict_get d "delegation_responses") as [[| | | | | items |] |];
      try discriminate; try reflexivity.
    destruct items as [| item items]; [reflexivity |].
    cbn [mbind result_bind iterate].
    destruct (sum_over_raises _ _ _ (nested_amount_term_missing "balance")
                Hmiss) as [e ->].
    reflexivity.
Qed.

(** ** The start-up check *)

Lemma truthy_true (v : option string) :
  truthy v = true <-> exists s, v = Some s /\ s <> "".
Proof.
  destruct v as [s |]; cbn.
  - rewrite negb_true_iff, String.eqb_neq. split.
    + eauto.
    + intros (s' & [= <-] & Hne). exact Hne.
  - split; [discriminate | intros (s & [=] & _)].
Qed.

Lemma truthy_false (v : option string) :
  truthy v = false <-> v = None \/ v = Some "".
Proof.
  destruct v as [s |]; cbn.
  - rewrite negb_false_iff, String.eqb_eq. split.
    + intros ->. auto.
    + intros [[=] | [= ->]]. reflexivity.
  - split; auto.
Qed.

Lemma check_accounts_passes (accounts : list account) :
  Forall (fun a => Forall (fun v => exists s, v = Some s /\ s <> "")
                          (values a)) accounts ->
  check_accounts accounts = Ok tt.
Proof.
  induction 1 as [| a rest Ha _ IH]; cbn [check_accounts]; [reflexivity |].
  replace (forallb truthy (values a)) with true; [exact IH |].
  symmetry. apply forallb_forall. intros v Hin.
  apply truthy_true.
  rewrite Forall_forall in Ha. apply Ha, list_elem_of_In, Hin.
Qed.

Lemma check_accounts_raises (accounts : list account) :
  Exists (fun a => Exists (fun v => v = None \/ v = Some "") (values a))
         accounts ->
  exists msg, check_accounts accounts = Raise (Exn ValueError (Some msg)).
Proof.
  induction 1 as [a rest Ha | a rest _ IH]; cbn [check_accounts].
  - replace (forallb truthy (values a)) with false; [cbn; eauto |].
    symmetry. apply not_true_is_false. intros Hall.
    rewrite forallb_forall in Hall.
    apply Exists_exists in Ha as (v & Hin & Hv).
    apply list_elem_of_In, Hall in Hin.
    apply truthy_false in Hv. congruence.
  - destruct (forallb truthy (values a)); cbn; eauto.
Qed.

(** C8. If, for some configured account, one of name, address and
    valoper_address is unset or empty, the script raises a ValueError at
    module level and no monitoring task is created; if all three are
    non-empty for all four accounts, the check passes and one monitoring
    task per account is created. *)
Theorem startup_checks_every_account (getenv : environ) :
  (Exists (fun a => Exists (fun v => v = None \/ v = Some "") (values a))
          (ACCOUNTS getenv) ->
   exists msg, startup getenv = Raise (Exn ValueError (Some msg))) /\
  (Forall (fun a => Forall (fun v => exists s, v = Some s /\ s <> "")
                           (values a))
          (ACCOUNTS getenv) ->
   startup getenv = Ok (map monitor_account (ACCOUNTS getenv)) /\
   length (ACCOUNTS getenv) = 4%nat).
Proof.
  unfold startup. split.
  - intros Hbad.
    destruct (check_accounts_raises _ Hbad) as [msg ->]. cbn. eauto.
  - intros Hgood. rewrite check_accounts_passes by assumption.
    split; reflexivity.
Qed.

(** * Further properties *)

(** ** The sums of the extraction rules *)

Lemma for_each_one_raises {A B : Type} (f : A -> result B) (xs : list A) :
  Exists (fun x => exists e, f x = Raise e) xs ->
  exists e, for_each f xs = Raise e.
Proof.
  induction 1 as [x xs [e He] | x xs _ [e IH]]; cbn [for_each].
  - rewrite He. cbn. eauto.
  - destruct (f x); cbn; [| eauto]. rewrite IH. cbn. eauto.
Qed.

Lemma raising_rule_blanks (s : session) (endpoint column : string)
    (extract_func : pyval -> result pyval) (text : result string)
    (data : pyval) :
  s endpoint = Response 200 text (Ok data) ->
  (exists e, extract_func data = Raise e) ->
  fetch_endpoint s endpoint column extract_func = Ok (column, PStr "").
Proof.
  intros Hresp [e He].
  rewrite fetch_endpoint_value. unfold fetched_value.
  rewrite Hresp, He. reflexivity.
Qed.

(** X1. The three sums are all or nothing: when one item of the summed
    list lacks its amount, or holds one that [float] refuses, the whole
    rule raises and the column is left empty, whatever the other items
    hold; no partial sum is ever recorded. *)
Theorem one_bad_item_voids_the_sum (s : session) (endpoint column : string)
    (text : result string) (d : pydict) (items : list pyval) :
  s endpoint = Response 200 text (Ok (PDict d)) ->
  (dict_get d "total" = Some (PList items) ->
   Exists (fun item => exists e, reward_amount item = Raise e) items ->
   fetch_endpoint s endpoint column extract_rewards = Ok (column, PStr ""))
  /\
  (dict_get d "tips" = Some (PList items) ->
   Exists (fun item => exists e, tip_amount item = Raise e) items ->
   fetch_endpoint s endpoint column extract_available_tips
   = Ok (column, PStr "")) /\
  (dict_get d "delegation_responses" = Some (PList items) ->
   Exists (fun item => exists e, delegation_amount item = Raise e) items ->
   fetch_endpoint s endpoint column extract_delegations
   = Ok (column, PStr "")).
Proof using float_of_int float_of_str float_sum.
  intros Hresp.
  repeat split; intros Hlist Hbad;
    apply (raising_rule_blanks _ _ _ _ _ _ Hresp);
    apply for_each_one_raises in Hbad as [e Hbad].
  - exists e. unfold extract_rewards. cbn. rewrite Hlist. cbn.
    unfold sum_over. fold reward_amount. rewrite Hbad. reflexivity.
  - exists e. unfold extract_available_tips. cbn. rewrite Hlist. cbn.
    unfold sum_over. fold tip_amount. rewrite Hbad. reflexivity.
  - exists e. unfold extract_delegations. cbn. rewrite Hlist. cbn.
    unfold sum_over. fold delegation_amount. rewrite Hbad. reflexivity.
Qed.

Lemma sum_over_number (term : pyval -> result F) (items : list pyval)
    (v : pyval) :
  sum_over term items = Ok v -> v = PInt 0 \/ exists x, v = PFloat x.
Proof.
  unfold sum_over. destruct (for_each term items) as [xs | e]; cbn.
  - intros [= <-]. destruct xs; cbn; eauto.
  - discriminate.
Qed.

Lemma summed_value_number (extract_func : pyval -> result pyval)
    (s : session) (endpoint : string) :
  (forall data v,
      extract_func data = Ok v -> v = PInt 0 \/ exists x, v = PFloat x) ->
  fetched_value s endpoint extract_func = PStr ""
  \/ fetched_value s endpoint extract_func = PInt 0
  \/ exists x, fetched_value s endpoint extract_func = PFloat x.
Proof.
  intros Hnum. unfold fetched_value.
  destruct (s endpoint) as [e | status text [data | e]]; auto.
  destruct (Z.eqb status 200); auto.
  destruct (extract_func data) as [v |] eqn:Hv; auto.
  destruct (Hnum _ _ Hv) as [-> | [x ->]]; eauto.
Qed.

Lemma extract_rewards_number (data v : pyval) :
  extract_rewards data = Ok v -> v = PInt 0 \/ exists x, v = PFloat x.
Proof using float_of_int float_of_str float_sum.
  unfold extract_rewards.
  destruct (get_default data "total" (PList [])) as [total | e]; cbn;
    [| discriminate].
  destruct (iterate total) as [items | e]; cbn; [| discriminate].
  apply sum_over_number.
Qed.

Lemma extract_available_tips_number (data v : pyval) :
  extract_available_tips data = Ok v -> v = PInt 0 \/ exists x, v = PFloat x.
Proof using float_of_int float_of_str float_sum.
  unfold extract_available_tips.
  destruct (get_default data "tips" (PList [])) as [tips | e]; cbn;
    [| discriminate].
  destruct (iterate tips) as [items | e]; cbn; [| discriminate].
  apply sum_over_number.
Qed.

Lemma extract_delegations_number (data v : pyval) :
  extract_delegations data = Ok v -> v = PInt 0 \/ exists x, v = PFloat x.
Proof using float_of_int float_of_str float_sum.
  unfold extract_delegations.
  destruct (getitem data "delegation_responses") as [responses | e]; cbn;
    [| discriminate].
  destruct (iterate responses) as [items | e]; cbn; [| discriminate].
  apply sum_over_number.
Qed.

(** X2. In every record [fetch_data_for_account] builds, the columns
    rewards, available-tips and delegations hold the empty string, the
    integer 0 or a float, and nothing else: whatever JSON the endpoints
    send, no string, list or object from a body reaches these columns. *)
Theorem summed_columns_hold_numbers_or_nothing (s : session) (now : string)
    (a : account) :
  exists data,
    fetch_data_for_account s now a = Ok data /\
    Forall (fun column =>
              exists v,
                dict_get data column = Some v /\
                (v = PStr "" \/ v = PInt 0 \/ exists x, v = PFloat x))
           ["rewards"; "available-tips"; "delegations"].
Proof.
  eexists. split; [apply fetch_data_for_account_value |].
  unfold endpoints. cbn [map].
  repeat apply Forall_cons_2; try apply Forall_nil_2;
    (eexists; split; [reflexivity |]).
  - apply summed_value_number, extract_rewards_number.
  - apply summed_value_number, extract_available_tips_number.
  - apply summed_value_number, extract_delegations_number.
Qed.

(** ** One endpoint failing *)

Lemma fetched_value_elsewhere (s : session) (url u : string)
    (o : http_outcome) (extract_func : pyval -> result pyval) :
  String.eqb u url = false ->
  fetched_value (override s url o) u extract_func
  = fetched_value s u extract_func.
Proof.
  intros Hne. unfold fetched_value, override. rewrite Hne. reflexivity.
Qed.

(** X3. The six requests of a record go to six different URLs, so a
    failure at one of them touches one column only: replacing what one
    endpoint meets by an outcome on which its fetch fails gives the same
    record with that column set to the empty string. *)
Theorem failing_endpoint_blanks_its_column_only (s : session) (now : string)
    (a : account) (endpoint column : string)
    (extract_func : pyval -> result pyval) (o : http_outcome) :
  In (endpoint, column, extract_func) (endpoints a) ->
  fetch_failed (override s endpoint o) endpoint extract_func = true ->
  exists data,
    fetch_data_for_account s now a = Ok data /\
    fetch_data_for_account (override s endpoint o) now a
    = Ok (dict_set data column (PStr "")).
Proof.
  intros Hin Hfail.
  eexists. split; [apply fetch_data_for_account_value |].
  rewrite fetch_data_for_account_value. f_equal.
  apply fetched_value_failed in Hfail.
  unfold endpoints in *. cbn [In] in Hin. cbn [map].
  destruct Hin as [H | [H | [H | [H | [H | [H | []]]]]]];
    injection H as <- <- <-; rewrite Hfail;
    rewrite !fetched_value_elsewhere by reflexivity;
    reflexivity.
Qed.

(** ** Records as dictionaries *)

Lemma dict_get_after_other_key (k k' : string) (v : pyval) (rest : pydict) :
  k <> k' -> dict_get ((k, v) :: rest) k' = dict_get rest k'.
Proof.
  intros Hne. cbn. apply String.eqb_neq in Hne. rewrite Hne. reflexivity.
Qed.

(** ** The start-up check, account by account *)

Lemma complete_all_truthy (a : account) :
  Forall (fun v => exists s, v = Some s /\ s <> "") (values a) ->
  forallb truthy (values a) = true.
Proof.
  intros Ha. apply forallb_forall. intros v Hin.
  apply truthy_true.
  rewrite Forall_forall in Ha. apply Ha, list_elem_of_In, Hin.
Qed.

Lemma incomplete_not_all_truthy (a : account) :
  Exists (fun v => v = None \/ v = Some "") (values a) ->
  forallb truthy (values a) = false.
Proof.
  intros Ha. apply not_true_is_false. intros Hall.
  rewrite forallb_forall in Hall.
  apply Exists_exists in Ha as (v & Hin & Hv).
  apply list_elem_of_In, Hall in Hin.
  apply truthy_false in Hv. congruence.
Qed.

(** X6. The check stops at the first account that lacks a value: the
    ValueError it raises names that account (as None when it is the name
    that is unset), and the accounts after it are not looked at. *)
Theorem first_incomplete_account_is_reported (complete : list account)
    (bad : account) (rest : list account) :
  Forall (fun a => Forall (fun v => exists s, v = Some s /\ s <> "")
                          (values a)) complete ->
  Exists (fun v => v = None \/ v = Some "") (values bad) ->
  check_accounts (complete ++ bad :: rest)
  = Raise (Exn ValueError
             (Some ("Missing required environment variables for account "
                      +:+ fmt (name bad)
                      +:+ ". Please check your .env file."))).
Proof.
  intros Hcomplete Hbad.
  induction Hcomplete as [| a complete Ha _ IH]; cbn [app check_accounts].
  - rewrite incomplete_not_all_truthy by assumption. reflexivity.
  - rewrite complete_all_truthy by assumption. exact IH.
Qed.

(** ** The loop and the disk *)

(** One pass, in full: the events and the disk it leaves. *)
Lemma cycle_value (a : account) (env : cycle_env)
    (fs : gmap string csv_file) :
  cycle a env fs
  = match open_error env (csv_name a) with
    | Some e =>
        (map (fun '(endpoint, _, _) => EGet endpoint) (endpoints a)
           ++ [ESave (csv_name a); EPrintError e; ESleep 60],
         fs)
    | None =>
        (map (fun '(endpoint, _, _) => EGet endpoint) (endpoints a)
           ++ [ESave (csv_name a);
               EPrintSaved (csv_name a) (PStr (clock env)); ESleep 300],
         <[csv_name a :=
             match fs !! csv_name a with
             | Some content => content ++ [row_of (the_snapshot a env)]
             | None => [map PStr COLUMNS; row_of (the_snapshot a env)]
             end]> fs)
    end.
Proof.
  unfold cycle, try_block, the_snapshot, csv_name.
  rewrite fetch_data_for_account_value.
  destruct (open_error env (fmt (name a) +:+ ".csv")) as [e |] eqn:Hopen.
  - erewrite save_to_csv_refused by eassumption. reflexivity.
  - rewrite save_to_csv_written by assumption. reflexivity.
Qed.


(** X7. A monitoring loop changes no other file than the one named
    after its account: every other path holds after the run what it held
    before, however many passes ran and whatever they met. *)
Theorem monitor_account_touches_only_its_file (a : account)
    (envs : list cycle_env) (fs : gmap string csv_file) (other : string) :
  other <> csv_name a ->
  files (monitor_account a envs fs) !! other = fs !! other.
Proof.
  intros Hother. revert fs.
  induction envs as [| env envs IH]; intros fs; cbn [monitor_account].
  - reflexivity.
  - destruct (shutdown_is_set env); [reflexivity |].
    rewrite cycle_value.
    destruct (open_error env (csv_name a)); cbn [files]; rewrite IH.
    + reflexivity.
    + apply lookup_insert_ne. congruence.
Qed.

(** X10. An outage does not interrupt the log: in a pass in which all
    six field fetches fail, the record holds the timestamp and six empty
    strings, and when [open] succeeds that row is appended like any
    other. *)
Theorem outage_still_writes_a_blank_row (a : account) (env : cycle_env)
    (fs : gmap string csv_file) (content : csv_file) :
  Forall (fun '(endpoint, _, extract_func) =>
            fetch_failed (net env) endpoint extract_func = true)
         (endpoints a) ->
  open_error env (csv_name a) = None ->
  fs !! csv_name a = Some content ->
  fetch_data_for_account (net env) (clock env) a
  = Ok (blank_snapshot (clock env)) /\
  snd (cycle a env fs)
  = <[csv_name a := content ++ [PStr (clock env) :: repeat (PStr "") 6]]> fs.
Proof.
  intros Hfailed Hopen Hfile.
  assert (fetch_data_for_account (net env) (clock env) a
          = Ok (blank_snapshot (clock env))) as Hblank.
  { rewrite fetch_data_for_account_value.
    unfold endpoints in *. cbn [map].
    repeat (apply Forall_cons_1 in Hfailed as [?Hf%fetched_value_failed
                                                  Hfailed]).
    rewrite Hf, Hf0, Hf1, Hf2, Hf3, Hf4. reflexivity. }
  split; [exact Hblank |].
  rewrite cycle_value, Hopen, Hfile. cbn [snd].
  unfold the_snapshot. rewrite Hblank. reflexivity.
Qed.

(** * The functions with their prints and failing writes *)

(** ** Agreement with the functions above *)

Lemma fetch_endpoint_io_quiet (s : session) (endpoint column : string)
    (extract_func : pyval -> result pyval) :
  fetch_endpoint_io (fun _ => None) s endpoint column extract_func
  = fetch_endpoint s endpoint column extract_func.
Proof.
  unfold fetch_endpoint_io, fetch_endpoint, py_print.
  destruct (s endpoint) as [e | status text json]; cbn; [reflexivity |].
  destruct (Z.eqb status 200); cbn.
  - destruct json as [data | e]; cbn; [| reflexivity].
    destruct (extract_func data); reflexivity.
  - destruct text; reflexivity.
Qed.

Lemma fetch_data_for_account_io_quiet (s : session) (now : string)
    (a : account) :
  fetch_data_for_account_io (fun _ => None) s now a
  = fetch_data_for_account s now a.
Proof.
  unfold fetch_data_for_account_io, fetch_data_for_account, announce.
  cbn [py_print mbind result_bind].
  unfold endpoints. cbn [map].
  rewrite !fetch_endpoint_io_quiet. reflexivity.
Qed.

Lemma save_to_csv_io_quiet (open_error : string -> option exn)
    (data : pydict) (filename : string) (fs : gmap string csv_file) :
  save_to_csv_io open_error (fun _ => None) data filename fs
  = save_to_csv open_error data filename fs.
Proof.
  unfold save_to_csv_io, save_to_csv, writeheader_io, writeheader,
    writerow_io, writerow.
  destruct (open_error filename); [reflexivity |].
  destruct (negb (bool_decide (is_Some (fs !! filename))));
    repeat match goal with
           | |- context [dict_to_list ?w ?d] => destruct (dict_to_list w d)
           end; reflexivity.
Qed.

Lemma cycle_io_quiet (a : account) (env : cycle_env)
    (fs : gmap string csv_file) :
  cycle_io a (quiet env) fs
  = (None, fst (cycle a env fs), snd (cycle a env fs)).
Proof.
  unfold cycle_io, cycle, try_block_io, try_block, quiet.
  cbn [around stdout write_error].
  rewrite fetch_data_for_account_io_quiet.
  destruct (fetch_data_for_account (net env) (clock env) a) as [data | e];
    [| reflexivity].
  rewrite save_to_csv_io_quiet.
  destruct (save_to_csv (open_error env) data (fmt (name a) +:+ ".csv") fs)
    as [[u | e] fs']; [| reflexivity].
  destruct (dict_get data "timestamp"); cbn; rewrite <- ?app_assoc;
    reflexivity.
Qed.

(** On a terminal that takes every message and a disk whose writes go
    through, the loop with its prints is the loop above. *)
Lemma monitor_account_io_quiet (a : account) (envs : list cycle_env) :
  forall fs : gmap string csv_file,
    ending (monitor_account_io a (map quiet envs) fs)
    = match state (monitor_account a envs fs) with
      | Running => Looping
      | Stopped => Finished
      end /\
    events (monitor_account_io a (map quiet envs) fs)
    = trace (monitor_account a envs fs) /\
    disk (monitor_account_io a (map quiet envs) fs)
    = files (monitor_account a envs fs).
Proof.
  induction envs as [| env envs IH]; intros fs;
    cbn [map monitor_account_io monitor_account].
  - auto.
  - cbn [quiet around]. fold (quiet env).
    destruct (shutdown_is_set env); [auto |].
    rewrite cycle_io_quiet.
    destruct (cycle a env fs) as [evs fs']. cbn [fst snd].
    destruct (IH fs') as (Hend & Hevents & Hdisk).
    cbn [ending events disk state trace files].
    rewrite Hend, Hevents, Hdisk. auto.
Qed.

(** ** fetch_endpoint with its prints *)


Ltac not_through :=
  let v := fresh "v" in
  intros v (? & ? & ? & ? & ? & ? & ? & ?); congruence.

Ltac in_handler stdout :=
  right; split; [not_through |];
  match goal with
  | |- context [stdout (PrintErrorProcessing ?c ?e)] =>
      destruct (stdout (PrintErrorProcessing c e)) eqn:?; cbn; eauto 6
  end.

(** The three ways a call can end. *)
Lemma fetch_endpoint_io_cases (stdout : message -> option exn)
    (s : session) (endpoint column : string)
    (extract_func : pyval -> result pyval) :
  (exists value,
      fetch_goes_through stdout s endpoint column extract_func value /\
      fetch_endpoint_io stdout s endpoint column extract_func
      = Ok (column, value)) \/
  ((forall value,
       ~ fetch_goes_through stdout s endpoint column extract_func value) /\
   (fetch_endpoint_io stdout s endpoint column extract_func
    = Ok (column, PStr "") \/
    exists e e',
      stdout (PrintErrorProcessing column e) = Some e' /\
      fetch_endpoint_io stdout s endpoint column extract_func = Raise e')).
Proof.
  unfold fetch_endpoint_io, py_print.
  destruct (s endpoint) as [e | status text json] eqn:Hs; cbn.
  { in_handler stdout. }
  destruct (stdout (PrintFetching column endpoint)) eqn:H1; cbn.
  { in_handler stdout. }
  destruct (stdout (PrintStatus status)) eqn:H2; cbn.
  { in_handler stdout. }
  destruct (Z.eqb_spec status 200) as [-> | Hstatus]; cbn.
  - destruct json as [data | e]; cbn; [| in_handler stdout].
    destruct (stdout (PrintResponseData data)) eqn:H3; cbn;
      [in_handler stdout |].
    destruct (extract_func data) as [value | e] eqn:Hx; cbn;
      [| in_handler stdout].
    destruct (stdout (PrintExtracted value)) eqn:H4; cbn;
      [in_handler stdout |].
    left. exists value. split; [| reflexivity].
    exists text, data. auto 10.
  - destruct text as [error_text | e]; cbn; [| in_handler stdout].
    destruct (stdout (PrintErrorResponse error_text)) eqn:H3; cbn;
      [in_handler stdout |].
    right. split; [not_through | auto].
Qed.


(** ** monitor_account with its prints *)









Lemma cycle_io_goes_on (a : account) (p : pass) (fs : gmap string csv_file) :
  (forall e, stdout p (PrintLoopError (name a) e) = None) ->
  fst (fst (cycle_io a p fs)) = None.
Proof.
  intros Hhandler. unfold cycle_io.
  destruct (try_block_io a p fs) as [[[u | e] calls] fs']; [reflexivity |].
  rewrite Hhandler. reflexivity.
Qed.


(** ** save_to_csv with writes that can raise *)

Lemma dict_to_list_data (data : pydict) :
  dict_to_list {| fieldnames := dict_keys data |} data = Ok (row_of data).
Proof.
  unfold dict_to_list. cbn [fieldnames].
  rewrite keys_are_fieldnames. reflexivity.
Qed.

Lemma dict_to_list_header (data : pydict) :
  dict_to_list {| fieldnames := dict_keys data |}
               (map (fun k => (k, PStr k)) (dict_keys data))
  = Ok (header_of data).
Proof.
  unfold dict_to_list. cbn [fieldnames].
  replace (dict_keys (map (fun k => (k, PStr k)) (dict_keys data)))
    with (dict_keys data).
  2:{ unfold dict_keys. rewrite map_map. cbn [fst]. rewrite map_id.
      reflexivity. }
  rewrite keys_are_fieldnames. f_equal. unfold header_of.
  apply map_ext_in. intros k Hin.
  rewrite dict_get_header by assumption. reflexivity.
Qed.

(** A call, in full. *)
Lemma save_to_csv_io_value (open_error : string -> option exn)
    (write_error : list pyval -> option exn) (data : pydict)
    (filename : string) (fs : gmap string csv_file) :
  save_to_csv_io open_error write_error data filename fs
  = match open_error filename with
    | Some e => (Raise e, fs)
    | None =>
        match fs !! filename with
        | Some content =>
            match write_error (row_of data) with
            | Some e => (Raise e, <[filename := content]> fs)
            | None => (Ok tt, <[filename := content ++ [row_of data]]> fs)
            end
        | None =>
            match write_error (header_of data) with
            | Some e => (Raise e, <[filename := []]> fs)
            | None =>
                match write_error (row_of data) with
                | Some e => (Raise e, <[filename := [header_of data]]> fs)
                | None =>
                    (Ok tt, <[filename := [header_of data; row_of data]]> fs)
                end
            end
        end
    end.
Proof.
  unfold save_to_csv_io, writeheader_io, writerow_io. cbn [fieldnames].
  destruct (open_error filename); [reflexivity |].
  rewrite dict_to_list_header, dict_to_list_data.
  destruct (fs !! filename) as [content |] eqn:Hfile.
  - rewrite bool_decide_eq_true_2 by eauto. cbn.
    destruct (write_error (row_of data)); reflexivity.
  - rewrite bool_decide_eq_false_2 by (intros [? ?]; discriminate). cbn.
    destruct (write_error (header_of data)); [reflexivity |].
    destruct (write_error (row_of data)); reflexivity.
Qed.


Lemma row_of_zips_back (data : pydict) :
  NoDup (dict_keys data) -> combine (dict_keys data) (row_of data) = data.
Proof.
  intros Hkeys. unfold row_of.
  induction data as [| [k v] rest IH]; [reflexivity |].
  cbn [dict_keys map fst] in *.
  apply NoDup_cons in Hkeys as [Hfresh Hkeys].
  cbn [combine]. f_equal.
  - cbn [dict_get]. rewrite String.eqb_refl. reflexivity.
  - etransitivity; [| exact (IH Hkeys)].
    unfold dict_keys. f_equal. apply map_ext_in. intros k' Hin.
    rewrite dict_get_after_other_key; [reflexivity |].
    intros ->. apply Hfresh, list_elem_of_In, Hin.
Qed.

(** X5. What a call of [save_to_csv] that returns leaves in the file
    lines up with the record: the last record of the file is a row that,
    paired position by position with the keys of the record, gives back
    the record (its keys being distinct, as those of a dict are); and when
    the file is new, the record before it is the header, which lists
    these keys in the same order. *)
Theorem saved_row_zips_back_to_record (open_error : string -> option exn)
    (write_error : list pyval -> option exn) (data : pydict)
    (filename : string) (fs : gmap string csv_file) :
  NoDup (dict_keys data) ->
  fst (save_to_csv_io open_error write_error data filename fs) = Ok tt ->
  exists kept row,
    snd (save_to_csv_io open_error write_error data filename fs) !! filename
    = Some (kept ++ [row]) /\
    combine (dict_keys data) row = data /\
    match fs !! filename with
    | Some content => kept = content
    | None => kept = [map PStr (dict_keys data)]
    end.
Proof.
  intros Hkeys. rewrite save_to_csv_io_value.
  destruct (open_error filename) as [e0 |]; [discriminate |].
  destruct (fs !! filename) as [content |] eqn:Hfile.
  - destruct (write_error (row_of data)); [discriminate |]. intros _.
    exists content, (row_of data). cbn [snd].
    rewrite lookup_insert_eq. auto using row_of_zips_back.
  - destruct (write_error (header_of data)); [discriminate |].
    destruct (write_error (row_of data)); [discriminate |]. intros _.
    exists [header_of data], (row_of data). cbn [snd].
    rewrite lookup_insert_eq. auto using row_of_zips_back.
Qed.

(** ** The loop with its prints, and the disk *)



Lemma fetch_endpoint_io_column (stdout : message -> option exn)
    (s : session) (endpoint column : string)
    (extract_func : pyval -> result pyval) (r : string * pyval) :
  fetch_endpoint_io stdout s endpoint column extract_func = Ok r ->
  fst r = column.
Proof.
  destruct (fetch_endpoint_io_cases stdout s endpoint column extract_func)
    as [(value & _ & ->) | (_ & [-> | (e & e' & _ & ->)])];
    [intros [= <-]; reflexivity .. | discriminate].
Qed.

Lemma fetch_data_for_account_io_keys (stdout : message -> option exn)
    (s : session) (now : string) (a : account) (data : pydict) :
  fetch_data_for_account_io stdout s now a = Ok data ->
  dict_keys data = COLUMNS.
Proof.
  unfold fetch_data_for_account_io.
  destruct (announce stdout a); cbn [mbind result_bind]; [| discriminate].
  unfold endpoints, gather. cbn [map for_each].
  repeat match goal with
         | |- context [fetch_endpoint_io ?o ?s ?e ?c ?f] =>
             let H := fresh "H" in
             destruct (fetch_endpoint_io o s e c f) as [[? ?] | ?] eqn:H;
             [ apply fetch_endpoint_io_column in H; cbn [fst] in H; subst
             | discriminate ];
             cbn [mbind result_bind]
         end.
  intros [= <-]. reflexivity.
Qed.

(** The disk after a pass whose handler print and writes succeed. *)
Lemma cycle_io_disk (a : account) (p : pass) (fs : gmap string csv_file) :
  (forall e, stdout p (PrintLoopError (name a) e) = None) ->
  (forall row, write_error p row = None) ->
  fst (fst (cycle_io a p fs)) = None /\
  snd (cycle_io a p fs)
  = match fetch_data_for_account_io (stdout p) (net (around p))
            (clock (around p)) a with
    | Ok data =>
        match open_error (around p) (csv_name a) with
        | None =>
            <[csv_name a :=
                match fs !! csv_name a with
                | Some content => content ++ [row_of data]
                | None => [map PStr COLUMNS; row_of data]
                end]> fs
        | Some _ => fs
        end
    | Raise _ => fs
    end.
Proof.
  intros Hhandler Hwrite.
  split; [apply cycle_io_goes_on, Hhandler |].
  unfold cycle_io, try_block_io. fold (csv_name a).
  destruct (fetch_data_for_account_io (stdout p) (net (around p))
              (clock (around p)) a) as [data | e] eqn:Hdata.
  2:{ rewrite Hhandler. reflexivity. }
  apply fetch_data_for_account_io_keys in Hdata.
  rewrite save_to_csv_io_value.
  destruct (open_error (around p) (csv_name a)) as [e |].
  { rewrite Hhandler. reflexivity. }
  unfold header_of. rewrite Hdata, !Hwrite.
  destruct (fs !! csv_name a);
    destruct (dict_get data "timestamp") as [timestamp |];
    try destruct (stdout p (PrintSaved (csv_name a) timestamp));
    rewrite ?Hhandler; reflexivity.
Qed.

Lemma existing_file_grows_io (a : account) (passes : list pass) :
  forall (fs : gmap string csv_file) (content : csv_file),
    fs !! csv_name a = Some content ->
    Forall (fun p =>
              shutdown_is_set (around p) = false /\
              (forall e, stdout p (PrintLoopError (name a) e) = None) /\
              (forall row, write_error p row = None)) passes ->
    disk (monitor_account_io a passes fs) !! csv_name a
    = Some (content ++ saved_rows_io a passes).
Proof.
  induction passes as [| p passes IH]; intros fs content Hfile Hpasses;
    cbn [monitor_account_io saved_rows_io flat_map].
  - rewrite app_nil_r. exact Hfile.
  - apply Forall_cons_1 in Hpasses as [(Hclear & Hhandler & Hwrite) Hpasses].
    rewrite Hclear.
    destruct (cycle_io_disk a p fs Hhandler Hwrite) as [Hgo Hdisk].
    destruct (cycle_io a p fs) as [[crash evs] fs'].
    cbn [fst snd] in Hgo, Hdisk. subst crash fs'. cbn [disk].
    fold (saved_rows_io a passes).
    destruct (fetch_data_for_account_io (stdout p) (net (around p))
                (clock (around p)) a) as [data | e];
      [destruct (open_error (around p) (csv_name a)) |]; cbn [app].
    + apply IH; assumption.
    + rewrite Hfile.
      rewrite (IH _ (content ++ [row_of data]))
        by (apply lookup_insert_eq || assumption).
      rewrite <- app_assoc. reflexivity.
    + apply IH; assumption.
Qed.

(** X9. Over passes that find the shutdown event clear, in which the
    print of the error handler succeeds when it is reached and no write
    raises once [open] has succeeded, the account's file gains exactly
    the data rows of the passes that built their record and whose [open]
    succeeded, in pass order.  A file that existed keeps what it held and
    gets no header; a path that did not exist stays absent until the
    first such pass, and then starts with the one header that names the
    seven columns. *)
Theorem file_gains_one_row_per_saved_pass (a : account)
    (passes : list pass) (fs : gmap string csv_file) :
  Forall (fun p =>
            shutdown_is_set (around p) = false /\
            (forall e, stdout p (PrintLoopError (name a) e) = None) /\
            (forall row, write_error p row = None)) passes ->
  disk (monitor_account_io a passes fs) !! csv_name a
  = match fs !! csv_name a with
    | Some content => Some (content ++ saved_rows_io a passes)
    | None =>
        match saved_rows_io a passes with
        | [] => None
        | rows => Some (map PStr COLUMNS :: rows)
        end
    end.
Proof.
  intros Hpasses.
  destruct (fs !! csv_name a) as [content |] eqn:Hfile.
  { apply existing_file_grows_io; assumption. }
  revert fs Hfile.
  induction Hpasses as [| p passes (Hclear & Hhandler & Hwrite) Hpasses IH];
    intros fs Hfile; cbn [monitor_account_io saved_rows_io flat_map].
  - exact Hfile.
  - rewrite Hclear.
    destruct (cycle_io_disk a p fs Hhandler Hwrite) as [Hgo Hdisk].
    destruct (cycle_io a p fs) as [[crash evs] fs'].
    cbn [fst snd] in Hgo, Hdisk. subst crash fs'. cbn [disk].
    fold (saved_rows_io a passes).
    destruct (fetch_data_for_account_io (stdout p) (net (around p))
                (clock (around p)) a) as [data | e];
      [destruct (open_error (around p) (csv_name a)) |]; cbn [app].
    + apply IH, Hfile.
    + rewrite Hfile.
      rewrite (existing_file_grows_io a passes _
                 [map PStr COLUMNS; row_of data])
        by (apply lookup_insert_eq || assumption).
      reflexivity.
    + apply IH, Hfile.
Qed.

End Monitor.

Arguments PNone {F}.
Arguments PBool {F} b.
Arguments PInt {F} n.
Arguments PFloat {F} x.
Arguments PStr {F} s.
Arguments PList {F} items.
Arguments PDict {F} entries.
Arguments GetRaises {F} e.
Arguments Response {F} status text json.
Arguments ECheck {F} is_set.
Arguments EGet {F} endpoint.
Arguments ESave {F} filename.
Arguments EPrintSaved {F} filename timestamp.
Arguments EPrintError {F} e.
Arguments ESleep {F} seconds.

(** * The properties on concrete inputs

    Floats are the whole numbers of [whole_of_str] and [whole_sum]. *)

(** C3 on two records saved to a new file. *)
Lemma fresh_file_has_header_then_rows_witness :
  (∅ : gmap string (list (list (pyval Z)))) !! "A.csv" = None /\
  Forall (fun data =>
            exists s now a,
              fetch_data_for_account Z Some whole_of_str whole_sum s now a
              = Ok data)
         [snapshot_down Z; snapshot_empty_objects Z] /\
  exists rows,
    save_each Z disk_ok [snapshot_down Z; snapshot_empty_objects Z]
              "A.csv" ∅
    = (Ok tt, <["A.csv" := map PStr COLUMNS :: rows]> ∅) /\
    length rows = 2%nat /\
    Forall2 (fun data row =>
               Forall2 (fun column cell => dict_get Z data column = Some cell)
                       COLUMNS row)
            [snapshot_down Z; snapshot_empty_objects Z] rows.
Proof.
  assert ((∅ : gmap string (list (list (pyval Z)))) !! "A.csv" = None)
    as Hfresh by reflexivity.
  assert (Forall (fun data =>
                    exists s now a,
                      fetch_data_for_account Z Some whole_of_str whole_sum
                                             s now a
                      = Ok data)
                 [snapshot_down Z; snapshot_empty_objects Z]) as Hsnap.
  { apply Forall_cons_2; [| apply Forall_cons_2; [| apply Forall_nil_2]].
    - exists (net_down Z), "2024-01-01 00:00:00", sample_account.
      reflexivity.
    - exists (net_empty_objects Z), "2024-01-01 00:00:00", sample_account.
      reflexivity. }
  exact (conj Hfresh (conj Hsnap
           (fresh_file_has_header_then_rows Z Some whole_of_str whole_sum
              "A.csv" ∅ _ _ Hfresh Hsnap))).
Defined.

(** C7 on a file that holds one record. *)
Lemma existing_file_gets_one_row_witness :
  ({["A.csv" := [[PStr "old"]]]} : gmap string (list (list (pyval Z))))
    !! "A.csv" = Some [[PStr "old"]] /\
  (disk_ok "A.csv" = None ->
   save_to_csv Z disk_ok (snapshot_down Z) "A.csv"
               {["A.csv" := [[PStr "old"]]]}
   = (Ok tt,
      <["A.csv" := [[PStr "old"]] ++ [row_of Z (snapshot_down Z)]]>
        {["A.csv" := [[PStr "old"]]]})) /\
  (forall e,
      disk_ok "A.csv" = Some e ->
      save_to_csv Z disk_ok (snapshot_down Z) "A.csv"
                  {["A.csv" := [[PStr "old"]]]}
      = (Raise e, {["A.csv" := [[PStr "old"]]]})).
Proof.
  assert (({["A.csv" := [[PStr "old"]]]}
           : gmap string (list (list (pyval Z))))
            !! "A.csv" = Some [[PStr "old"]]) as Hfile by reflexivity.
  exact (conj Hfile
           (existing_file_gets_one_row Z disk_ok (snapshot_down Z) "A.csv"
              _ _ Hfile)).
Defined.

(** C10 on an empty file. *)
Lemma header_depends_on_existence_only_witness :
  disk_ok "A.csv" = None /\
  (({["A.csv" := []]} : gmap string (list (list (pyval Z)))) !! "A.csv"
   = Some [] ->
   save_to_csv Z disk_ok (snapshot_down Z) "A.csv" {["A.csv" := []]}
   = (Ok tt, <["A.csv" := [row_of Z (snapshot_down Z)]]> {["A.csv" := []]}))
  /\
  snd (save_to_csv Z disk_ok (snapshot_down Z) "A.csv" {["A.csv" := []]})
    !! "A.csv"
  = Some (default [] (({["A.csv" := []]}
                       : gmap string (list (list (pyval Z)))) !! "A.csv")
            ++ (if bool_decide
                     (is_Some (({["A.csv" := []]}
                                : gmap string (list (list (pyval Z))))
                                 !! "A.csv"))
                then [row_of Z (snapshot_down Z)]
                else [header_of Z (snapshot_down Z);
                      row_of Z (snapshot_down Z)])).
Proof.
  assert (disk_ok "A.csv" = None) as Hopen by reflexivity.
  exact (conj Hopen
           (header_depends_on_existence_only Z disk_ok (snapshot_down Z)
              "A.csv" {["A.csv" := []]} Hopen)).
Defined.

(** C6 on the balance endpoint answering 200 with the empty object. *)
Lemma missing_path_gives_empty_or_zero_witness :
  In ("https://info.layer-node.com/cosmos/bank/v1beta1/balances/addr1/by_denom?denom=loya",
      "account_balance", extract_account_balance Z)
     (endpoints Z Some whole_of_str whole_sum sample_account) /\
  net_empty_objects Z
    "https://info.layer-node.com/cosmos/bank/v1beta1/balances/addr1/by_denom?denom=loya"
  = Response 200 (Ok "{}") (Ok (PDict [])) /\
  missing Z (expected_path "account_balance") (PDict []) = true /\
  fetch_endpoint Z (net_empty_objects Z)
    "https://info.layer-node.com/cosmos/bank/v1beta1/balances/addr1/by_denom?denom=loya"
    "account_balance" (extract_account_balance Z)
  = Ok ("account_balance",
        if sums_nothing Z (expected_path "account_balance") (PDict [])
        then PInt 0 else PStr "").
Proof.
  assert (In ("https://info.layer-node.com/cosmos/bank/v1beta1/balances/addr1/by_denom?denom=loya",
              "account_balance", extract_account_balance Z)
             (endpoints Z Some whole_of_str whole_sum sample_account))
    as Hin by (left; reflexivity).
  assert (net_empty_objects Z
            "https://info.layer-node.com/cosmos/bank/v1beta1/balances/addr1/by_denom?denom=loya"
          = Response 200 (Ok "{}") (Ok (PDict []))) as Hresp by reflexivity.
  assert (missing Z (expected_path "account_balance") (PDict []) = true)
    as Hmiss by reflexivity.
  exact (conj Hin (conj Hresp (conj Hmiss
           (missing_path_gives_empty_or_zero Z Some whole_of_str whole_sum
              sample_account _ _ _ _ _ _ Hin Hresp Hmiss)))).
Defined.

(** C6 as stated fails on the rewards endpoint: the body is the empty
    object, so the key total is absent, and the column value is the
    integer 0, not the empty string. *)
Lemma rewards_without_total_is_zero :
  missing Z (expected_path "rewards") (PDict []) = true /\
  fetch_endpoint Z (net_empty_objects Z)
    "https://info.layer-node.com/cosmos/distribution/v1beta1/delegators/addr1/rewards"
    "rewards" (extract_rewards Z Some whole_of_str whole_sum)
  = Ok ("rewards", PInt 0) /\
  fetch_endpoint Z (net_empty_objects Z)
    "https://info.layer-node.com/cosmos/distribution/v1beta1/delegators/addr1/rewards"
    "rewards" (extract_rewards Z Some whole_of_str whole_sum)
  <> Ok ("rewards", PStr "").
Proof.
  split; [reflexivity |]. split; [reflexivity |]. discriminate.
Qed.

(** C9 as stated fails on a run of one good pass followed by the pass
    that stops the loop: the 300-second sleep is the tenth event and what
    comes directly before it is the message, not a read of the event. *)
Lemma sleep_follows_message_not_check :
  trace Z (monitor_account Z Some whole_of_str whole_sum sample_account
             [env_running Z (net_full Z) disk_ok; env_shutdown Z] ∅)
    !! 9%nat = Some (ESleep 300) /\
  trace Z (monitor_account Z Some whole_of_str whole_sum sample_account
             [env_running Z (net_full Z) disk_ok; env_shutdown Z] ∅)
    !! 8%nat = Some (EPrintSaved "A.csv" (PStr "2024-01-01 00:00:00")) /\
  ~ polled_around_each_sleep Z
      (trace Z (monitor_account Z Some whole_of_str whole_sum sample_account
                  [env_running Z (net_full Z) disk_ok; env_shutdown Z] ∅)).
Proof.
  split; [reflexivity |]. split; [reflexivity |].
  intros Hpolled.
  destruct (Hpolled 8%nat 300 eq_refl) as [[is_set Hread] _].
  discriminate Hread.
Qed.

(** * The further properties on concrete inputs *)

(** X1 on a list whose second item has no amount. *)
Lemma one_bad_item_voids_the_sum_witness :
  net_one_bad Z "u" = Response 200 (Ok "...") (Ok (PDict (body_one_bad Z)))
  /\
  (dict_get Z (body_one_bad Z) "total" = Some (PList (items_one_bad Z)) ->
   Exists (fun item => exists e, reward_amount Z Some whole_of_str item = Raise e)
          (items_one_bad Z) ->
   fetch_endpoint Z (net_one_bad Z) "u" "rewards"
                  (extract_rewards Z Some whole_of_str whole_sum)
   = Ok ("rewards", PStr "")) /\
  (dict_get Z (body_one_bad Z) "tips" = Some (PList (items_one_bad Z)) ->
   Exists (fun item => exists e, tip_amount Z Some whole_of_str item = Raise e)
          (items_one_bad Z) ->
   fetch_endpoint Z (net_one_bad Z) "u" "rewards"
                  (extract_available_tips Z Some whole_of_str whole_sum)
   = Ok ("rewards", PStr "")) /\
  (dict_get Z (body_one_bad Z) "delegation_responses"
   = Some (PList (items_one_bad Z)) ->
   Exists (fun item =>
             exists e, delegation_amount Z Some whole_of_str item = Raise e)
          (items_one_bad Z) ->
   fetch_endpoint Z (net_one_bad Z) "u" "rewards"
                  (extract_delegations Z Some whole_of_str whole_sum)
   = Ok ("rewards", PStr "")).
Proof.
  assert (net_one_bad Z "u"
          = Response 200 (Ok "...") (Ok (PDict (body_one_bad Z)))) as Hresp
    by reflexivity.
  exact (conj Hresp
           (one_bad_item_voids_the_sum Z Some whole_of_str whole_sum
              (net_one_bad Z) "u" "rewards" _ _ (items_one_bad Z) Hresp)).
Defined.

(** X3 on the rewards endpoint answering 500 while the others answer
    200. *)
Lemma failing_endpoint_blanks_its_column_only_witness :
  In ("https://info.layer-node.com/cosmos/distribution/v1beta1/delegators/addr1/rewards",
      "rewards", extract_rewards Z Some whole_of_str whole_sum)
     (endpoints Z Some whole_of_str whole_sum sample_account) /\
  fetch_failed Z
    (override Z (net_full Z)
       "https://info.layer-node.com/cosmos/distribution/v1beta1/delegators/addr1/rewards"
       (Response 500 (Ok "Internal Server Error")
                 (Raise (lib_error JSONDecodeError))))
    "https://info.layer-node.com/cosmos/distribution/v1beta1/delegators/addr1/rewards"
    (extract_rewards Z Some whole_of_str whole_sum) = true /\
  exists data,
    fetch_data_for_account Z Some whole_of_str whole_sum (net_full Z)
                           "2024-01-01 00:00:00" sample_account
    = Ok data /\
    fetch_data_for_account Z Some whole_of_str whole_sum
      (override Z (net_full Z)
         "https://info.layer-node.com/cosmos/distribution/v1beta1/delegators/addr1/rewards"
         (Response 500 (Ok "Internal Server Error")
                   (Raise (lib_error JSONDecodeError))))
      "2024-01-01 00:00:00" sample_account
    = Ok (dict_set Z data "rewards" (PStr "")).
Proof.
  assert (In ("https://info.layer-node.com/cosmos/distribution/v1beta1/delegators/addr1/rewards",
              "rewards", extract_rewards Z Some whole_of_str whole_sum)
             (endpoints Z Some whole_of_str whole_sum sample_account))
    as Hin by (right; left; reflexivity).
  assert (fetch_failed Z
            (override Z (net_full Z)
               "https://info.layer-node.com/cosmos/distribution/v1beta1/delegators/addr1/rewards"
               (Response 500 (Ok "Internal Server Error")
                         (Raise (lib_error JSONDecodeError))))
            "https://info.layer-node.com/cosmos/distribution/v1beta1/delegators/addr1/rewards"
            (extract_rewards Z Some whole_of_str whole_sum) = true)
    as Hfail by reflexivity.
  exact (conj Hin (conj Hfail
           (failing_endpoint_blanks_its_column_only Z Some whole_of_str
              whole_sum (net_full Z) "2024-01-01 00:00:00" sample_account
              _ _ _ _ Hin Hfail))).
Defined.

(** X6 on a complete account followed by one whose name is unset. *)
Lemma first_incomplete_account_is_reported_witness :
  Forall (fun a => Forall (fun v => exists s, v = Some s /\ s <> "")
                          (values a)) [sample_account] /\
  Exists (fun v => v = None \/ v = Some "") (values nameless_account) /\
  check_accounts ([sample_account] ++ nameless_account :: [sample_account])
  = Raise (Exn ValueError
             (Some ("Missing required environment variables for account "
                      +:+ fmt (name nameless_account)
                      +:+ ". Please check your .env file."))).
Proof.
  assert (Forall (fun a => Forall (fun v => exists s, v = Some s /\ s <> "")
                                  (values a)) [sample_account]) as Hgood.
  { apply Forall_cons_2; [| apply Forall_nil_2].
    repeat apply Forall_cons_2; try apply Forall_nil_2;
      eexists; (split; [reflexivity | discriminate]). }
  assert (Exists (fun v => v = None \/ v = Some "")
                 (values nameless_account)) as Hbad
    by (apply Exists_cons_hd; left; reflexivity).
  exact (conj Hgood (conj Hbad
           (first_incomplete_account_is_reported [sample_account]
              nameless_account [sample_account] Hgood Hbad))).
Defined.

(** X7 on a run of one good pass, seen from another account's file. *)
Lemma monitor_account_touches_only_its_file_witness :
  "B.csv" <> csv_name sample_account /\
  files Z (monitor_account Z Some whole_of_str whole_sum sample_account
             [env_running Z (net_full Z) disk_ok]
             {["B.csv" := [[PStr "kept"]]]})
    !! "B.csv"
  = ({["B.csv" := [[PStr "kept"]]]} : gmap string (list (list (pyval Z))))
      !! "B.csv".
Proof.
  assert ("B.csv" <> csv_name sample_account) as Hother by discriminate.
  exact (conj Hother
           (monitor_account_touches_only_its_file Z Some whole_of_str
              whole_sum sample_account [env_running Z (net_full Z) disk_ok]
              {["B.csv" := [[PStr "kept"]]]} "B.csv" Hother)).
Defined.

(** X10 on a pass with the network down and a file that exists. *)
Lemma outage_still_writes_a_blank_row_witness :
  Forall (fun '(endpoint, _, extract_func) =>
            fetch_failed Z (net Z (env_running Z (net_down Z) disk_ok))
                         endpoint extract_func = true)
         (endpoints Z Some whole_of_str whole_sum sample_account) /\
  open_error Z (env_running Z (net_down Z) disk_ok) (csv_name sample_account)
  = None /\
  ({["A.csv" := [[PStr "old"]]]} : gmap string (list (list (pyval Z))))
    !! csv_name sample_account = Some [[PStr "old"]] /\
  fetch_data_for_account Z Some whole_of_str whole_sum
    (net Z (env_running Z (net_down Z) disk_ok))
    (clock Z (env_running Z (net_down Z) disk_ok)) sample_account
  = Ok (blank_snapshot Z (clock Z (env_running Z (net_down Z) disk_ok))) /\
  snd (cycle Z Some whole_of_str whole_sum sample_account
             (env_running Z (net_down Z) disk_ok)
             {["A.csv" := [[PStr "old"]]]})
  = <[csv_name sample_account :=
        [[PStr "old"]]
          ++ [PStr (clock Z (env_running Z (net_down Z) disk_ok))
                :: repeat (PStr "") 6]]>
      {["A.csv" := [[PStr "old"]]]}.
Proof.
  assert (Forall (fun '(endpoint, _, extract_func) =>
                    fetch_failed Z
                      (net Z (env_running Z (net_down Z) disk_ok))
                      endpoint extract_func = true)
                 (endpoints Z Some whole_of_str whole_sum sample_account))
    as Hfailed
    by (repeat apply Forall_cons_2; try apply Forall_nil_2; reflexivity).
  assert (open_error Z (env_running Z (net_down Z) disk_ok)
                     (csv_name sample_account) = None) as Hopen
    by reflexivity.
  assert (({["A.csv" := [[PStr "old"]]]}
           : gmap string (list (list (pyval Z))))
            !! csv_name sample_account = Some [[PStr "old"]]) as Hfile
    by reflexivity.
  exact (conj Hfailed (conj Hopen (conj Hfile
           (outage_still_writes_a_blank_row Z Some whole_of_str whole_sum
              sample_account _ _ _ Hfailed Hopen Hfile)))).
Defined.

(** * The functions with their prints, on concrete inputs *)






(** X5 on the record of an outage saved to a new file. *)
Lemma saved_row_zips_back_to_record_witness :
  NoDup (dict_keys Z (snapshot_down Z)) /\
  fst (save_to_csv_io Z disk_ok (fun _ => None) (snapshot_down Z) "A.csv" ∅)
  = Ok tt /\
  exists kept row,
    snd (save_to_csv_io Z disk_ok (fun _ => None) (snapshot_down Z)
                        "A.csv" ∅) !! "A.csv"
    = Some (kept ++ [row]) /\
    combine (dict_keys Z (snapshot_down Z)) row = snapshot_down Z /\
    match (∅ : gmap string (list (list (pyval Z)))) !! "A.csv" with
    | Some content => kept = content
    | None => kept = [map PStr (dict_keys Z (snapshot_down Z))]
    end.
Proof.
  assert (NoDup (dict_keys Z (snapshot_down Z))) as Hkeys
    by (apply (bool_decide_unpack _); vm_compute; reflexivity).
  assert (fst (save_to_csv_io Z disk_ok (fun _ => None) (snapshot_down Z)
                              "A.csv" ∅) = Ok tt) as Hok by reflexivity.
  exact (conj Hkeys (conj Hok
           (saved_row_zips_back_to_record Z disk_ok (fun _ => None)
              (snapshot_down Z) "A.csv" ∅ Hkeys Hok))).
Defined.


(** X9 on a refused pass followed by a good one, on a new path. *)
Lemma file_gains_one_row_per_saved_pass_witness :
  Forall (fun p =>
            shutdown_is_set Z (around Z p) = false /\
            (forall e,
                stdout Z p (PrintLoopError Z (name sample_account) e) = None)
            /\
            (forall row, write_error Z p row = None))
         [quiet Z (env_running Z (net_down Z) disk_denied);
          quiet Z (env_running Z (net_full Z) disk_ok)] /\
  disk Z (monitor_account_io Z Some whole_of_str whole_sum sample_account
            [quiet Z (env_running Z (net_down Z) disk_denied);
             quiet Z (env_running Z (net_full Z) disk_ok)] ∅)
    !! csv_name sample_account
  = match (∅ : gmap string (list (list (pyval Z)))) !! csv_name sample_account
    with
    | Some content =>
        Some (content
                ++ saved_rows_io Z Some whole_of_str whole_sum sample_account
                     [quiet Z (env_running Z (net_down Z) disk_denied);
                      quiet Z (env_running Z (net_full Z) disk_ok)])
    | None =>
        match saved_rows_io Z Some whole_of_str whole_sum sample_account
                [quiet Z (env_running Z (net_down Z) disk_denied);
                 quiet Z (env_running Z (net_full Z) disk_ok)] with
        | [] => None
        | rows => Some (map PStr COLUMNS :: rows)
        end
    end.
Proof.
  assert (Forall (fun p =>
                    shutdown_is_set Z (around Z p) = false /\
                    (forall e,
                        stdout Z p (PrintLoopError Z (name sample_account) e)
                        = None) /\
                    (forall row, write_error Z p row = None))
                 [quiet Z (env_running Z (net_down Z) disk_denied);
                  quiet Z (env_running Z (net_full Z) disk_ok)]) as Hpasses
    by (repeat apply Forall_cons_2; try apply Forall_nil_2;
        repeat split; reflexivity).
  exact (conj Hpasses
           (file_gains_one_row_per_saved_pass Z Some whole_of_str whole_sum
              sample_account _ ∅ Hpasses)).
Defined.
